(** * A shallow embedding of [Circuit_breaker.py]

    The Python class [CircuitBreaker] is modelled as a record of its
    attributes, its methods as computations in a small state-and-exception
    monad over the running process (the object, what it printed, and the
    environment the wrapped operation acts on).

    Numbers are the ones Python computes with: [time.time()], the failure
    rate and the two real-valued settings are IEEE 754 binary64 floats
    (Rocq's primitive floats), counters and sizes are unbounded integers. *)

From Stdlib Require Import ZArith QArith List String Bool Lia.
From Stdlib Require Import Floats Uint63.
Import ListNotations.

Local Open Scope string_scope.
Local Open Scope list_scope.
Local Open Scope Z_scope.

(** ** States (class [State(Enum)]) *)

Inductive State : Type := CLOSED | OPEN | HALF_OPEN.

Definition State_eqb (a b : State) : bool :=
  match a, b with
  | CLOSED, CLOSED | OPEN, OPEN | HALF_OPEN, HALF_OPEN => true
  | _, _ => false
  end.

(** ** Exceptions

    The code raises plain [Exception]s carrying a message; the [deque]
    constructor raises [ValueError] or [OverflowError], and subtracting
    [None] from a float raises [TypeError]. [BaseException] stands for the
    exceptions that are not subclasses of [Exception] (such as
    [KeyboardInterrupt]): the clause [except Exception] of [call] does not
    catch them. *)

Inductive exn_class : Type :=
  Exception | ValueError | OverflowError | TypeError | BaseException.

Record exn : Type := mkExn { exn_cls : exn_class; exn_msg : string }.

Definition isinstance_Exception (e : exn) : bool :=
  match exn_cls e with
  | BaseException => false
  | _ => true
  end.

Inductive result (A : Type) : Type :=
| Return (a : A)
| Raise (e : exn).
Arguments Return {A} a.
Arguments Raise {A} e.

(** ** [collections.deque] with [maxlen]

    [append] adds at the right end and then, when the length exceeds
    [maxlen], drops one item from the left end (CPython's
    [deque_append_internal] followed by its trim). The constructor converts
    [maxlen] to a C [ssize_t] (64 bits) before it looks at its sign, so an
    integer outside [-2^63, 2^63) is an [OverflowError]. *)

Module Deque.

Record deque : Type := mk { maxlen : Z; items : list bool }.

(** [deque(maxlen=n)] *)
Definition new (n : Z) : result deque :=
  if (n <? - 2 ^ 63) || (2 ^ 63 <=? n)
  then Raise (mkExn OverflowError "Python int too large to convert to C ssize_t")
  else if n <? 0 then Raise (mkExn ValueError "maxlen must be non-negative")
  else Return (mk n []).

Definition len (d : deque) : Z := Z.of_nat (List.length (items d)).

Definition append (x : bool) (d : deque) : deque :=
  let l := items d ++ [x] in
  if maxlen d <? Z.of_nat (List.length l) then mk (maxlen d) (tl l)
  else mk (maxlen d) l.

Definition count (x : bool) (d : deque) : Z :=
  Z.of_nat (count_occ bool_dec (items d) x).

Definition clear (d : deque) : deque := mk (maxlen d) [].

(** truth value of a deque: non-empty *)
Definition truthy (d : deque) : bool :=
  match items d with [] => false | _ :: _ => true end.

End Deque.

(** ** Floats

    [float_of_int] is the conversion Python applies to the operands of
    [int / int]. For operands below 2^53 (any length a deque can have) the
    conversion is exact and the true division is the IEEE division of the
    two converted operands. *)

Definition float_of_int (z : Z) : float := PrimFloat.of_uint63 (Uint63.of_Z z).

(** Python's [a > b] and [a >= b] on floats. *)
Definition float_gt (a b : float) : bool := PrimFloat.ltb b a.
Definition float_ge (a b : float) : bool := PrimFloat.leb b a.

(** ** The object

    The four settings first, as [__init__] stores them, then the internal
    state. [failure_rate_threshold] and [open_state_wait] are compared with
    floats and are floats here (a Python [int] below 2^53 compares as the
    float of the same value); [window_size] is handed to [deque] and
    [half_open_max_calls] is compared with a counter, both integers.
    [last_failure_time] is [None] until the breaker first trips. *)

Record CircuitBreaker : Type := mkCircuitBreaker {
  failure_rate_threshold : float;
  window_size : Z;
  half_open_max_calls : Z;
  open_state_wait : float;
  state : State;
  last_failure_time : option float;
  recent_calls : Deque.deque;
  half_open_calls : Z;
  half_open_success : Z
}.

Definition set_state (v : State) (cb : CircuitBreaker) : CircuitBreaker :=
  mkCircuitBreaker (failure_rate_threshold cb) (window_size cb)
    (half_open_max_calls cb) (open_state_wait cb) v (last_failure_time cb)
    (recent_calls cb) (half_open_calls cb) (half_open_success cb).

Definition set_last_failure_time (v : option float) (cb : CircuitBreaker)
  : CircuitBreaker :=
  mkCircuitBreaker (failure_rate_threshold cb) (window_size cb)
    (half_open_max_calls cb) (open_state_wait cb) (state cb) v
    (recent_calls cb) (half_open_calls cb) (half_open_success cb).

Definition set_recent_calls (v : Deque.deque) (cb : CircuitBreaker)
  : CircuitBreaker :=
  mkCircuitBreaker (failure_rate_threshold cb) (window_size cb)
    (half_open_max_calls cb) (open_state_wait cb) (state cb)
    (last_failure_time cb) v (half_open_calls cb) (half_open_success cb).

Definition set_half_open_calls (v : Z) (cb : CircuitBreaker) : CircuitBreaker :=
  mkCircuitBreaker (failure_rate_threshold cb) (window_size cb)
    (half_open_max_calls cb) (open_state_wait cb) (state cb)
    (last_failure_time cb) (recent_calls cb) v (half_open_success cb).

Definition set_half_open_success (v : Z) (cb : CircuitBreaker) : CircuitBreaker :=
  mkCircuitBreaker (failure_rate_threshold cb) (window_size cb)
    (half_open_max_calls cb) (open_state_wait cb) (state cb)
    (last_failure_time cb) (recent_calls cb) (half_open_calls cb) v.

(** [CircuitBreaker.__init__]: no argument is checked; the only failures
    are the ones of [deque(maxlen=window_size)]. *)
Definition __init__ (failure_rate_threshold : float) (window_size : Z)
    (half_open_max_calls : Z) (open_state_wait : float)
  : result CircuitBreaker :=
  match Deque.new window_size with
  | Raise e => Raise e
  | Return d =>
      Return (mkCircuitBreaker failure_rate_threshold window_size
                half_open_max_calls open_state_wait
                CLOSED None d 0 0)
  end.

(** [_current_failure_rate] reads the object only. *)
Definition _current_failure_rate (cb : CircuitBreaker) : float :=
  if negb (Deque.truthy (recent_calls cb)) then 0%float
  else
    let failures := Deque.count false (recent_calls cb) in
    (float_of_int failures / float_of_int (Deque.len (recent_calls cb)) * 100)%float.

(** ** The process and its monad *)

Section Process.

(** [W]: the state of whatever the wrapped operation acts on;
    [R]: the values it returns. *)
Variables W R : Type.

Record Proc : Type := mkProc {
  self : CircuitBreaker;
  stdout : list string;
  world : W
}.

Definition Py (A : Type) : Type := Proc -> result A * Proc.

Definition ret {A} (a : A) : Py A := fun p => (Return a, p).

Definition raise {A} (e : exn) : Py A := fun p => (Raise e, p).

Definition bind {A B} (m : Py A) (k : A -> Py B) : Py B :=
  fun p =>
    match m p with
    | (Return a, p') => k a p'
    | (Raise e, p') => (Raise e, p')
    end.

(** [try: m except BaseException as e: h e] *)
Definition try_except {A} (m : Py A) (h : exn -> Py A) : Py A :=
  fun p =>
    match m p with
    | (Return a, p') => (Return a, p')
    | (Raise e, p') => h e p'
    end.

Definition get_self : Py CircuitBreaker := fun p => (Return (self p), p).

Definition update_self (f : CircuitBreaker -> CircuitBreaker) : Py unit :=
  fun p => (Return tt, mkProc (f (self p)) (stdout p) (world p)).

Definition print (line : string) : Py unit :=
  fun p => (Return tt, mkProc (self p) (stdout p ++ [line]) (world p)).

(** Calling the wrapped operation. *)
Definition invoke (func : W -> result R * W) : Py R :=
  fun p =>
    let '(r, w) := func (world p) in
    (r, mkProc (self p) (stdout p) w).

Definition exec {A} (m : Py A) (p : Proc) : Proc := snd (m p).
Definition eval {A} (m : Py A) (p : Proc) : result A := fst (m p).

End Process.

Arguments mkProc {W} self stdout world.
Arguments self {W} p.
Arguments stdout {W} p.
Arguments world {W} p.
Arguments ret {W A} a p.
Arguments raise {W A} e p.
Arguments bind {W A B} m k p.
Arguments try_except {W A} m h p.
Arguments get_self {W} p.
Arguments update_self {W} f p.
Arguments print {W} line p.
Arguments invoke {W R} func p.
Arguments exec {W A} m p.
Arguments eval {W A} m p.

Declare Scope py_scope.
Delimit Scope py_scope with py.
Notation "x <- m ;; k" := (bind m (fun x => k))
  (at level 61, m at next level, right associativity) : py_scope.
Notation "m ;; k" := (bind m (fun _ => k))
  (at level 61, right associativity) : py_scope.
Local Open Scope py_scope.

(** ** The methods

    A parameter [now] of a method is the value [time.time()] returns where
    the method reads the clock. *)

Section Methods.

Context {W : Type}.

Definition _transition_to_open (now : float) : Py W unit :=
  update_self (set_state OPEN) ;;
  update_self (set_last_failure_time (Some now)) ;;
  print "[TRANSITION] → OPEN".

Definition _transition_to_half_open : Py W unit :=
  update_self (set_state HALF_OPEN) ;;
  update_self (set_half_open_calls 0) ;;
  update_self (set_half_open_success 0) ;;
  print "[TRANSITION] → HALF_OPEN".

Definition _transition_to_closed : Py W unit :=
  update_self (set_state CLOSED) ;;
  update_self (fun cb => set_recent_calls (Deque.clear (recent_calls cb)) cb) ;;
  print "[TRANSITION] → CLOSED".

Definition _on_success (now : float) : Py W unit :=
  cb <- get_self ;;
  if State_eqb (state cb) HALF_OPEN then
    update_self (fun cb => set_half_open_calls (half_open_calls cb + 1) cb) ;;
    update_self (fun cb => set_half_open_success (half_open_success cb + 1) cb) ;;
    cb <- get_self ;;
    if (half_open_max_calls cb <=? half_open_calls cb)
       && (half_open_success cb =? half_open_calls cb)
    then _transition_to_closed
    else ret tt
  else
    update_self (fun cb => set_recent_calls (Deque.append true (recent_calls cb)) cb) ;;
    cb <- get_self ;;
    if float_gt (_current_failure_rate cb) (failure_rate_threshold cb)
    then _transition_to_open now
    else ret tt.

Definition _on_failure (now : float) : Py W unit :=
  cb <- get_self ;;
  if State_eqb (state cb) HALF_OPEN then
    update_self (fun cb => set_half_open_calls (half_open_calls cb + 1) cb) ;;
    _transition_to_open now
  else
    update_self (fun cb => set_recent_calls (Deque.append false (recent_calls cb)) cb) ;;
    cb <- get_self ;;
    if float_gt (_current_failure_rate cb) (failure_rate_threshold cb)
    then _transition_to_open now
    else ret tt.

Definition open_message : string :=
  "CallNotPermittedException (Circuit is OPEN)".
Definition half_open_message : string :=
  "CallNotPermittedException (Too many test calls in HALF_OPEN)".

(** The [try] statement of [call]: run the operation and record its
    outcome. [now] is the clock as [_transition_to_open] reads it, should
    the recording trip the breaker. *)
Definition invoke_and_record {R} (now : float) (func : W -> result R * W)
  : Py W R :=
  try_except
    (r <- invoke func ;;
     _on_success now ;;
     ret r)
    (fun e =>
       if isinstance_Exception e then _on_failure now ;; raise e
       else raise e).

(** [call]: [now_check] is the clock as the test of the OPEN branch reads
    it, [now_record] as the recording of the outcome reads it. *)
Definition call {R} (now_check now_record : float)
    (func : W -> result R * W) : Py W R :=
  cb <- get_self ;;
  (if State_eqb (state cb) OPEN then
     match last_failure_time cb with
     | None =>
         raise (mkExn TypeError
                  "unsupported operand type(s) for -: 'float' and 'NoneType'")
     | Some t0 =>
         if float_ge (now_check - t0)%float (open_state_wait cb)
         then _transition_to_half_open
         else raise (mkExn Exception open_message)
     end
   else ret tt) ;;
  cb <- get_self ;;
  if State_eqb (state cb) HALF_OPEN
     && (half_open_max_calls cb <=? half_open_calls cb)
  then raise (mkExn Exception half_open_message)
  else invoke_and_record now_record func.

End Methods.

(** ** The demo service *)

Definition unstable_service {W} (should_fail : bool) : W -> result string * W :=
  fun w =>
    if should_fail then (Raise (mkExn Exception "Service failed!"), w)
    else (Return "Success!", w).

(** ** Notions the properties are stated with *)

(** A process is reachable when it starts from a breaker that [__init__]
    built and then only goes through [call]; between calls the rest of the
    program may print and change the environment, but it does not touch the
    breaker. *)
Inductive reachable {W : Type} : Proc W -> Prop :=
| reach_init (thr : float) (ws hmc : Z) (wait : float) (cb : CircuitBreaker)
    (out : list string) (w : W) :
    __init__ thr ws hmc wait = Return cb ->
    reachable (mkProc cb out w)
| reach_call (R : Type) (now_check now_record : float)
    (func : W -> result R * W) (p : Proc W) :
    reachable p ->
    reachable (exec (call now_check now_record func) p)
| reach_env (p : Proc W) (out : list string) (w : W) :
    reachable p ->
    reachable (mkProc (self p) out w).

Definition breaker_inv (cb : CircuitBreaker) : Prop :=
  Deque.maxlen (recent_calls cb) = window_size cb
  /\ 0 <= window_size cb
  /\ Deque.len (recent_calls cb) <= Deque.maxlen (recent_calls cb)
  /\ (state cb = HALF_OPEN -> half_open_success cb = half_open_calls cb)
  /\ (state cb = OPEN -> last_failure_time cb <> None).

(** The configurations the specification calls valid: a threshold within
    0 to 100, a positive [window_size], a positive [half_open_max_calls]
    and a non-negative [open_state_wait]. *)
Definition spec_valid_configuration (thr : float) (ws hmc : Z) (wait : float)
  : bool :=
  PrimFloat.leb 0 thr && PrimFloat.leb thr 100
  && (0 <? ws) && (0 <? hmc) && PrimFloat.leb 0 wait.

(** The values of the enumeration [State]. *)
Definition State_value (s : State) : string :=
  match s with
  | CLOSED => "CLOSED"
  | OPEN => "OPEN"
  | HALF_OPEN => "HALF_OPEN"
  end.

(** The line a transition into [s] prints. *)
Definition transition_line (s : State) : string :=
  ("[TRANSITION] → " ++ State_value s)%string.

(** [path from modes to]: starting in [from], the modes entered one after
    the other are [modes], each a change of mode, ending in [to]. *)
Fixpoint path (from : State) (modes : list State) (to : State) : Prop :=
  match modes with
  | [] => from = to
  | m :: ms => from <> m /\ path m ms to
  end.

(** Two breakers about to trip, one CLOSED and one in its trials. *)
Definition demo_closed : Proc unit :=
  mkProc (mkCircuitBreaker 50 4 2 3 CLOSED None
            (Deque.mk 4 [true; false; false]) 0 0) [] tt.

Definition demo_trial : Proc unit :=
  mkProc (mkCircuitBreaker 50 4 2 3 HALF_OPEN (Some 102%float)
            (Deque.mk 4 [true; false; false]) 1 1) [] tt.

(** ** A run of the demo

    The script at the end of the file, with a service that counts how
    often it ran: a success and two failures trip the breaker
    ([demo_open]); a call after the wait is a first trial
    ([demo_half_open]). *)

Definition service (should_fail : bool) : nat -> result string * nat :=
  fun n => (fst (unstable_service should_fail n), S n).

Definition demo_start : Proc nat :=
  mkProc (mkCircuitBreaker 50 4 2 3 CLOSED None (Deque.mk 4 []) 0 0) [] 0%nat.

Definition demo_open : Proc nat :=
  exec (call 102 102 (service true))
    (exec (call 101 101 (service true))
       (exec (call 100 100 (service false)) demo_start)).

Definition demo_half_open : Proc nat :=
  exec (call 106 106 (service false)) demo_open.

(** A HALF_OPEN breaker with its budget of two trials used up. *)
Definition demo_exhausted : Proc nat :=
  mkProc (mkCircuitBreaker 50 4 2 3 HALF_OPEN (Some 102%float)
            (Deque.mk 4 [true; false; false]) 2 2)
    ["[TRANSITION] → OPEN"; "[TRANSITION] → HALF_OPEN"] 4%nat.

(** The same run with [half_open_max_calls=0], which [__init__] accepts:
    the call after the wait moves to HALF_OPEN and is refused at once, and
    leaves a HALF_OPEN breaker with no trial to give. *)
Definition demo_no_budget : Proc nat :=
  exec (call 106 106 (service false))
    (exec (call 102 102 (service true))
       (exec (call 101 101 (service true))
          (exec (call 100 100 (service false))
             (mkProc (mkCircuitBreaker 50 4 0 3 CLOSED None (Deque.mk 4 []) 0 0)
                [] 0%nat)))).

(** ** Runs of several calls *)

(** The calls of a caller, one after the other, each with its two clock
    readings and its operation. *)
Fixpoint call_all {W R} (cs : list (float * float * (W -> result R * W)))
    (p : Proc W) : Proc W :=
  match cs with
  | [] => p
  | (now_check, now_record, func) :: rest =>
      call_all rest (exec (call now_check now_record func) p)
  end.

(** Outcomes recorded one after the other: [true] by [_on_success],
    [false] by [_on_failure], each with its clock reading. *)
Fixpoint record_all {W} (outcomes : list (bool * float)) (p : Proc W) : Proc W :=
  match outcomes with
  | [] => p
  | (b, now) :: rest =>
      record_all rest (exec (if b then _on_success now else _on_failure now) p)
  end.

(** The last [n] items of a list. *)
Definition lastn {A} (n : nat) (l : list A) : list A :=
  skipn (List.length l - n) l.

(** Two breakers with the same four settings and the same capacity of the
    window. *)
Definition same_settings (a b : CircuitBreaker) : Prop :=
  failure_rate_threshold a = failure_rate_threshold b
  /\ window_size a = window_size b
  /\ half_open_max_calls a = half_open_max_calls b
  /\ open_state_wait a = open_state_wait b
  /\ Deque.maxlen (recent_calls a) = Deque.maxlen (recent_calls b).

(** What the counters satisfy in every reachable process. *)
Definition counters_inv (cb : CircuitBreaker) : Prop :=
  0 <= half_open_success cb
  /\ half_open_success cb <= half_open_calls cb
  /\ half_open_calls cb <= half_open_success cb + 1
  /\ (state cb <> OPEN -> half_open_success cb = half_open_calls cb)
  /\ (0 < half_open_max_calls cb -> state cb = HALF_OPEN ->
      half_open_calls cb < half_open_max_calls cb).

(** ** The script under [if __name__ == "__main__"]

    One step of the script is
    [try: print(cb.call(unstable_service, x)) except Exception as e: print(e)];
    [print(e)] prints the message of the exception. [clock i] holds the two
    readings of [time.time()] open to the call number [i] (from 0);
    [time.sleep(4)] only lets the clock advance and is no step here. *)

Definition newline : string := String (Ascii.ascii_of_nat 10) EmptyString.

Definition step {W} (now : float * float) (should_fail : bool) : Py W unit :=
  try_except
    (r <- call (fst now) (snd now) (unstable_service should_fail) ;;
     print r)
    (fun e => if isinstance_Exception e then print (exn_msg e) else raise e).

Definition script {W} (clock : nat -> float * float) : Py W unit :=
  print (newline ++ "--- Initial calls ---")%string ;;
  step (clock 0%nat) false ;;
  step (clock 1%nat) true ;;
  step (clock 2%nat) true ;;
  step (clock 3%nat) false ;;
  print (newline ++ "--- Waiting to move to HALF_OPEN ---")%string ;;
  step (clock 4%nat) false ;;
  step (clock 5%nat) false ;;
  print (newline ++ "--- After recovery ---")%string ;;
  step (clock 6%nat) false.

(** The script builds its breaker first; there is no process with a breaker
    when that fails. *)
Definition main {W} (clock : nat -> float * float) (out : list string) (w : W)
  : result unit * option (Proc W) :=
  match __init__ 50 4 2 3 with
  | Raise e => (Raise e, None)
  | Return cb =>
      let '(r, p) := script clock (mkProc cb out w) in (r, Some p)
  end.

(** A clock for the script: one second per call, and the four seconds of
    sleep before the call number 4. *)
Definition demo_clock (i : nat) : float * float :=
  match i with
  | 0%nat => (100, 100)
  | 1%nat => (101, 101)
  | 2%nat => (102, 102)
  | 3%nat => (103, 103)
  | 4%nat => (107, 107)
  | 5%nat => (108, 108)
  | _ => (109, 109)
  end%float.

(** A breaker whose window keeps nothing. *)
Definition demo_no_window : Proc nat :=
  exec (call 101 101 (service true))
    (exec (call 100 100 (service true))
       (mkProc (mkCircuitBreaker 50 0 2 3 CLOSED None (Deque.mk 0 []) 0 0)
          [] 0%nat)).

(** An operation interrupted from outside. *)
Definition interrupted : nat -> result string * nat :=
  fun n => (Raise (mkExn BaseException "KeyboardInterrupt"), S n).

(** ** The failure rate in exact arithmetic

    The rate as the words "count of false entries / total entries, times
    100" read with rational numbers, to compare with the float the code
    computes. *)




(** A CLOSED breaker over a window of three failures. *)
Definition demo_degraded : Proc nat :=
  mkProc (mkCircuitBreaker 50 4 2 3 CLOSED None
            (Deque.mk 4 [false; false; false]) 0 0) [] 0%nat.

(** A breaker built with a threshold below 0. *)
Definition demo_negative : Proc nat :=
  mkProc (mkCircuitBreaker (-1) 4 2 3 CLOSED None (Deque.mk 4 []) 0 0) [] 0%nat.




(** ** Proof tools *)

Ltac py_unfold :=
  unfold call, invoke_and_record, _on_success, _on_failure,
    _transition_to_open, _transition_to_half_open, _transition_to_closed,
    bind, try_except, get_self, update_self, print, ret, raise, invoke,
    exec, eval in *.

Ltac open_proc p :=
  let cb := fresh "cb" in
  destruct p as [cb ? ?]; destruct cb; simpl in *; subst.

(** ** The methods on the HALF_OPEN branch *)

(** C3. A success recorded while HALF_OPEN increments both
    [half_open_calls] and [half_open_success]; the breaker then is CLOSED
    with its window cleared exactly when the incremented
    [half_open_calls >= half_open_max_calls] and the incremented
    [half_open_success == half_open_calls], and otherwise stays HALF_OPEN
    with its window untouched. *)
Theorem half_open_success_step {W} (now : float) (p : Proc W) :
  state (self p) = HALF_OPEN ->
  let p' := exec (_on_success now) p in
  let calls' := half_open_calls (self p) + 1 in
  let success' := half_open_success (self p) + 1 in
  eval (_on_success now) p = Return tt
  /\ half_open_calls (self p') = calls'
  /\ half_open_success (self p') = success'
  /\ (state (self p') = CLOSED
      <-> half_open_max_calls (self p) <= calls' /\ success' = calls')
  /\ (state (self p') = CLOSED ->
      recent_calls (self p') = Deque.clear (recent_calls (self p))
      /\ Deque.items (recent_calls (self p')) = [])
  /\ (state (self p') <> CLOSED ->
      state (self p') = HALF_OPEN
      /\ recent_calls (self p') = recent_calls (self p)).
Proof.
  intros H. open_proc p. py_unfold. simpl.
  destruct (Z.leb_spec half_open_max_calls0 (half_open_calls0 + 1));
    destruct (Z.eqb_spec (half_open_success0 + 1) (half_open_calls0 + 1));
    simpl; repeat split; intros; try congruence; try lia;
    try (exfalso; intuition congruence); intuition (try congruence; try lia).
Qed.

(** C4. A failure recorded while HALF_OPEN increments [half_open_calls]
    and moves the breaker to OPEN with [last_failure_time] set to the
    current time, whatever the counters were. *)
Theorem half_open_failure_step {W} (now : float) (p : Proc W) :
  state (self p) = HALF_OPEN ->
  let p' := exec (_on_failure now) p in
  eval (_on_failure now) p = Return tt
  /\ half_open_calls (self p') = half_open_calls (self p) + 1
  /\ half_open_success (self p') = half_open_success (self p)
  /\ state (self p') = OPEN
  /\ last_failure_time (self p') = Some now
  /\ recent_calls (self p') = recent_calls (self p).
Proof.
  intros H. open_proc p. py_unfold. simpl. repeat split.
Qed.

(** C8. A call made while HALF_OPEN with
    [half_open_calls >= half_open_max_calls] raises the
    CallNotPermitted exception and leaves the whole process as it was: the
    breaker, its output, and the environment of the wrapped operation,
    which therefore did not run. *)
Theorem half_open_budget_exhausted {W R} (now_check now_record : float)
    (func : W -> result R * W) (p : Proc W) :
  state (self p) = HALF_OPEN ->
  half_open_max_calls (self p) <= half_open_calls (self p) ->
  call now_check now_record func p
  = (Raise (mkExn Exception half_open_message), p).
Proof.
  intros H Hle. open_proc p. py_unfold. simpl.
  destruct (Z.leb_spec half_open_max_calls0 half_open_calls0); [reflexivity | lia].
Qed.

(** ** Float comparisons *)



(** ** The failure rate and the CLOSED branch *)

(** What recording an outcome outside HALF_OPEN leaves, with the window and
    the rate written out: [l] is the window with the outcome added, [window]
    what the deque keeps of it, [rate] the float computed from [window]. *)
Lemma record_closed_run {W} (b : bool) (now : float) (p : Proc W) :
  state (self p) = CLOSED ->
  let l := Deque.items (recent_calls (self p)) ++ [b] in
  let window :=
    if Deque.maxlen (recent_calls (self p)) <? Z.of_nat (List.length l)
    then tl l else l in
  let rate :=
    match window with
    | [] => 0%float
    | _ :: _ =>
        (PrimFloat.of_uint63 (Uint63.of_Z (Z.of_nat (count_occ bool_dec window false)))
         / PrimFloat.of_uint63 (Uint63.of_Z (Z.of_nat (List.length window)))
         * 100)%float
    end in
  let cb1 := set_recent_calls (Deque.mk (Deque.maxlen (recent_calls (self p))) window)
               (self p) in
  (if b then _on_success now else _on_failure now) p
  = (Return tt,
     if PrimFloat.ltb (failure_rate_threshold (self p)) rate
     then mkProc (set_last_failure_time (Some now) (set_state OPEN cb1))
            (stdout p ++ ["[TRANSITION] → OPEN"]) (world p)
     else mkProc cb1 (stdout p) (world p)).
Proof.
  intros Hst. destruct p as [cb out w];
    destruct cb as [thr ws hmc wait st lft [m items] calls succ].
  simpl in Hst. subst st.
  destruct b; py_unfold; unfold _current_failure_rate, float_gt, float_of_int,
    Deque.truthy, Deque.count, Deque.len, Deque.append; cbn -[Z.of_nat Z.ltb PrimFloat.ltb PrimFloat.div PrimFloat.mul PrimFloat.of_uint63 Uint63.of_Z count_occ List.length app tl];
    destruct (m <? Z.of_nat (List.length (items ++ [_])));
    cbn -[Z.of_nat Z.ltb PrimFloat.ltb PrimFloat.div PrimFloat.mul PrimFloat.of_uint63 Uint63.of_Z count_occ List.length app tl];
    match goal with
    | |- context [match ?x with [] => _ | _ :: _ => _ end] =>
        destruct x eqn:?
    end;
    cbn -[Z.of_nat Z.ltb PrimFloat.ltb PrimFloat.div PrimFloat.mul PrimFloat.of_uint63 Uint63.of_Z count_occ List.length app tl];
    match goal with
    | |- context [PrimFloat.ltb ?t ?r] => destruct (PrimFloat.ltb t r)
    end; reflexivity.
Qed.



(** C7. A success recorded while CLOSED appends [True] to the window (the
    deque dropping its oldest entry when it is full), the failure rate is
    computed over the window so updated, and when it is strictly greater
    than [failure_rate_threshold] the breaker moves to OPEN, with
    [last_failure_time] set to the current time and the transition
    printed, although the call succeeded; otherwise only the window has
    changed. *)
Theorem closed_success_step {W} (now : float) (p : Proc W) :
  state (self p) = CLOSED ->
  let p' := exec (_on_success now) p in
  let l := Deque.items (recent_calls (self p)) ++ [true] in
  let window :=
    if Deque.maxlen (recent_calls (self p)) <? Z.of_nat (List.length l)
    then tl l else l in
  let rate :=
    match window with
    | [] => 0%float
    | _ :: _ =>
        (PrimFloat.of_uint63 (Uint63.of_Z (Z.of_nat (count_occ bool_dec window false)))
         / PrimFloat.of_uint63 (Uint63.of_Z (Z.of_nat (List.length window)))
         * 100)%float
    end in
  let cb1 := set_recent_calls (Deque.mk (Deque.maxlen (recent_calls (self p))) window)
               (self p) in
  eval (_on_success now) p = Return tt
  /\ recent_calls (self p') = Deque.append true (recent_calls (self p))
  /\ Deque.items (recent_calls (self p')) = window
  /\ (PrimFloat.ltb (failure_rate_threshold (self p)) rate = true ->
      state (self p') = OPEN
      /\ last_failure_time (self p') = Some now
      /\ self p' = set_last_failure_time (Some now) (set_state OPEN cb1)
      /\ stdout p' = stdout p ++ ["[TRANSITION] → OPEN"])
  /\ (PrimFloat.ltb (failure_rate_threshold (self p)) rate = false ->
      state (self p') = CLOSED
      /\ self p' = cb1
      /\ stdout p' = stdout p).
Proof.
  intros H p' l window rate cb1.
  pose proof (record_closed_run true now p H) as Hrun.
  cbv zeta in Hrun. fold l in Hrun. fold window in Hrun. fold rate in Hrun.
  fold cb1 in Hrun.
  assert (Happ : Deque.append true (recent_calls (self p))
                 = Deque.mk (Deque.maxlen (recent_calls (self p))) window).
  { unfold Deque.append. fold l. subst window.
    destruct (Deque.maxlen (recent_calls (self p)) <? Z.of_nat (List.length l));
      reflexivity. }
  subst p'. unfold exec, eval. rewrite Hrun. cbn [fst snd].
  destruct (PrimFloat.ltb (failure_rate_threshold (self p)) rate);
    cbn [self stdout state set_state set_last_failure_time set_recent_calls
         recent_calls last_failure_time Deque.items];
    rewrite ?Happ; repeat split; intros; try congruence; try discriminate;
    exact H.
Qed.

(** ** Admission *)

Ltac break_ifs :=
  repeat match goal with
    | |- context [if ?c then _ else _] => destruct c eqn:?; simpl
    end.

(** The [try] statement runs the operation once, on the environment as it
    finds it, and hands its result or exception on unchanged. *)
Lemma invoke_and_record_runs_func {W R} (now : float)
    (func : W -> result R * W) (p : Proc W) :
  world (exec (invoke_and_record now func) p) = snd (func (world p))
  /\ eval (invoke_and_record now func) p = fst (func (world p)).
Proof.
  destruct p as [cb out w]. py_unfold. simpl.
  destruct (func w) as [[r | e] w']; simpl.
  - break_ifs; split; reflexivity.
  - break_ifs; split; reflexivity.
Qed.


(** With [half_open_max_calls <= 0] the same call still moves to HALF_OPEN
    once the wait has elapsed, and is then refused by the trial budget. *)
Lemma open_call_without_trial_budget {W R} (now_check now_record : float)
    (func : W -> result R * W) (p : Proc W) (t0 : float) :
  state (self p) = OPEN ->
  last_failure_time (self p) = Some t0 ->
  half_open_max_calls (self p) <= 0 ->
  float_ge (now_check - t0)%float (open_state_wait (self p)) = true ->
  call now_check now_record func p
  = (Raise (mkExn Exception half_open_message), exec _transition_to_half_open p).
Proof.
  intros Hst Ht0 Hmax Hge.
  destruct p as [cb out w]; destruct cb; simpl in *; subst.
  unfold call, bind, get_self. simpl. rewrite Hge.
  unfold _transition_to_half_open, bind, update_self, print, exec. simpl.
  destruct (Z.leb_spec half_open_max_calls0 0); [reflexivity | lia].
Qed.

(** ** The deque and the invariant of reachable processes *)

Lemma append_maxlen (x : bool) (d : Deque.deque) :
  Deque.maxlen (Deque.append x d) = Deque.maxlen d.
Proof.
  unfold Deque.append.
  destruct (Deque.maxlen d <? Z.of_nat (List.length (Deque.items d ++ [x])));
    reflexivity.
Qed.

Lemma append_len_le (x : bool) (d : Deque.deque) :
  0 <= Deque.maxlen d ->
  Deque.len d <= Deque.maxlen d ->
  Deque.len (Deque.append x d) <= Deque.maxlen d.
Proof.
  unfold Deque.len, Deque.append. intros H0 Hle.
  destruct (Z.ltb_spec (Deque.maxlen d) (Z.of_nat (List.length (Deque.items d ++ [x]))));
    simpl; [ | lia ].
  rewrite length_app in *. simpl in *.
  destruct (Deque.items d); simpl in *; [lia | ].
  rewrite length_app. simpl. lia.
Qed.

Lemma append_not_full (x : bool) (d : Deque.deque) :
  Deque.len d < Deque.maxlen d ->
  Deque.items (Deque.append x d) = Deque.items d ++ [x].
Proof.
  unfold Deque.len, Deque.append. intros Hlt.
  destruct (Z.ltb_spec (Deque.maxlen d) (Z.of_nat (List.length (Deque.items d ++ [x]))));
    simpl; [ | reflexivity ].
  rewrite length_app in *. simpl in *. lia.
Qed.

Lemma append_full (x : bool) (d : Deque.deque) :
  Deque.len d = Deque.maxlen d ->
  Deque.items (Deque.append x d) = tl (Deque.items d ++ [x]).
Proof.
  unfold Deque.len, Deque.append. intros Heq.
  destruct (Z.ltb_spec (Deque.maxlen d) (Z.of_nat (List.length (Deque.items d ++ [x]))));
    simpl; [ reflexivity | ].
  rewrite length_app in *. simpl in *. lia.
Qed.

(** What [__init__] returns when it returns. *)
Lemma init_returns (thr : float) (ws hmc : Z) (wait : float) (cb : CircuitBreaker) :
  __init__ thr ws hmc wait = Return cb ->
  0 <= ws < 2 ^ 63
  /\ cb = mkCircuitBreaker thr ws hmc wait CLOSED None (Deque.mk ws []) 0 0.
Proof.
  unfold __init__, Deque.new. intros Hinit.
  destruct (Z.ltb_spec ws (- 2 ^ 63)); cbn [orb] in Hinit; [discriminate Hinit | ].
  destruct (Z.leb_spec (2 ^ 63) ws); [discriminate Hinit | ].
  destruct (Z.ltb_spec ws 0); [discriminate Hinit | ].
  injection Hinit as <-. split; [lia | reflexivity].
Qed.

Lemma init_inv (thr : float) (ws hmc : Z) (wait : float) (cb : CircuitBreaker) :
  __init__ thr ws hmc wait = Return cb -> breaker_inv cb.
Proof.
  intros Hinit. destruct (init_returns thr ws hmc wait cb Hinit) as [Hws ->].
  unfold breaker_inv, Deque.len. simpl.
  repeat split; try lia; discriminate.
Qed.

Lemma recorded_inv (b : bool) (cb : CircuitBreaker) :
  breaker_inv cb ->
  breaker_inv (set_recent_calls (Deque.append b (recent_calls cb)) cb).
Proof.
  unfold breaker_inv. intros (Hm & H0 & Hl & Hh & Ho). simpl.
  rewrite append_maxlen. repeat split; auto.
  apply append_len_le; lia.
Qed.

Ltac inv_cases Hinv b :=
  let Hrec := fresh "Hrec" in
  pose proof (recorded_inv b _ Hinv) as Hrec;
  unfold breaker_inv, Deque.len, Deque.clear in *; simpl in *;
  break_ifs; simpl in *;
  repeat split; intros; try tauto; try lia; try congruence;
  try (apply Hrec; assumption).

Lemma on_success_inv {W} (now : float) (p : Proc W) :
  breaker_inv (self p) -> breaker_inv (self (exec (_on_success now) p)).
Proof.
  intros Hinv. destruct p as [cb out w]; destruct cb as [? ? ? ? st ? ? ? ?].
  py_unfold. simpl in *.
  destruct st; simpl; inv_cases Hinv true.
  destruct Hinv as (_ & _ & _ & Hh & _). specialize (Hh eq_refl). lia.
Qed.

Lemma on_failure_inv {W} (now : float) (p : Proc W) :
  breaker_inv (self p) -> breaker_inv (self (exec (_on_failure now) p)).
Proof.
  intros Hinv. destruct p as [cb out w]; destruct cb as [? ? ? ? st ? ? ? ?].
  py_unfold. simpl in *.
  destruct st; simpl; inv_cases Hinv false.
Qed.

Lemma on_success_returns {W} (now : float) (p : Proc W) :
  eval (_on_success now) p = Return tt.
Proof.
  destruct p as [cb out w]. py_unfold. simpl. break_ifs; reflexivity.
Qed.

Lemma on_failure_returns {W} (now : float) (p : Proc W) :
  eval (_on_failure now) p = Return tt.
Proof.
  destruct p as [cb out w]. py_unfold. simpl. break_ifs; reflexivity.
Qed.

Lemma half_open_inv {W} (p : Proc W) :
  breaker_inv (self p) -> breaker_inv (self (exec _transition_to_half_open p)).
Proof.
  intros Hinv. destruct p as [cb out w]; destruct cb.
  py_unfold. unfold breaker_inv in *. simpl in *.
  repeat split; intros; try tauto; congruence.
Qed.

Lemma invoke_and_record_inv {W R} (now : float) (func : W -> result R * W)
    (p : Proc W) :
  breaker_inv (self p) ->
  breaker_inv (self (exec (invoke_and_record now func) p)).
Proof.
  intros Hinv. unfold invoke_and_record, try_except, bind, invoke, exec, ret, raise.
  destruct p as [cb out w]. simpl.
  destruct (func w) as [[r | e] w'].
  - pose proof (on_success_inv now (mkProc cb out w') Hinv) as Hs.
    pose proof (on_success_returns now (mkProc cb out w')) as Hr.
    unfold exec in Hs. unfold eval in Hr.
    destruct (_on_success now (mkProc cb out w')) as [[[] | e] q];
      [ exact Hs | discriminate Hr ].
  - destruct (isinstance_Exception e); [ | exact Hinv ].
    pose proof (on_failure_inv now (mkProc cb out w') Hinv) as Hf.
    unfold exec in Hf.
    destruct (_on_failure now (mkProc cb out w')) as [[[] | e'] q]; exact Hf.
Qed.

Lemma call_inv {W R} (now_check now_record : float)
    (func : W -> result R * W) (p : Proc W) :
  breaker_inv (self p) ->
  breaker_inv (self (exec (call now_check now_record func) p)).
Proof.
  intros Hinv.
  assert (Hgate : forall q : Proc W, breaker_inv (self q) ->
            breaker_inv (self (snd
              ((cb <- get_self ;;
                if State_eqb (state cb) HALF_OPEN
                   && (half_open_max_calls cb <=? half_open_calls cb)
                then raise (mkExn Exception half_open_message)
                else invoke_and_record now_record func) q)))).
  { intros q Hq. unfold bind, get_self, raise.
    destruct (State_eqb (state (self q)) HALF_OPEN
              && (half_open_max_calls (self q) <=? half_open_calls (self q)));
      [ exact Hq | ].
    apply (invoke_and_record_inv now_record func q Hq). }
  unfold call, exec. unfold bind at 1. unfold get_self at 1.
  unfold bind at 1.
  destruct (State_eqb (state (self p)) OPEN).
  - destruct (last_failure_time (self p)) as [t0 | ]; [ | exact Hinv ].
    destruct (float_ge (now_check - t0)%float (open_state_wait (self p)));
      [ | exact Hinv ].
    pose proof (half_open_inv p Hinv) as Hh. unfold exec in Hh.
    destruct (_transition_to_half_open p) as [[[] | e] q] eqn:E; simpl in Hh.
    + apply (Hgate q Hh).
    + exact Hh.
  - unfold ret. apply (Hgate p Hinv).
Qed.

Lemma reachable_inv {W} (p : Proc W) : reachable p -> breaker_inv (self p).
Proof.
  induction 1 as [thr ws hmc wait cb out w Hinit | R t1 t2 func p _ IH | p out w _ IH].
  - simpl. exact (init_inv thr ws hmc wait cb Hinit).
  - exact (call_inv t1 t2 func p IH).
  - simpl. exact IH.
Qed.

(** X11. An OPEN breaker that was reached has the time of its trip recorded:
    the subtraction in [call] never meets [None]. *)
Lemma reachable_open_has_time {W} (p : Proc W) :
  reachable p ->
  state (self p) = OPEN ->
  exists t0 : float, last_failure_time (self p) = Some t0.
Proof.
  intros Hr Hst. destruct (reachable_inv p Hr) as (_ & _ & _ & _ & Ho).
  specialize (Ho Hst). destruct (last_failure_time (self p)) as [t0 | ].
  - exists t0. reflexivity.
  - congruence.
Qed.

(** ** What holds in every reachable process *)

(** C9. In every reachable process the window holds at most [window_size]
    entries. Appending to a window that is not full keeps every entry;
    appending to a full one drops the entry at the left end, the oldest,
    and keeps the others in order before the new one. *)
Theorem window_bounded_fifo {W} (p : Proc W) :
  reachable p ->
  let d := recent_calls (self p) in
  Deque.len d <= window_size (self p)
  /\ (forall x, Deque.len d < window_size (self p) ->
        Deque.items (Deque.append x d) = Deque.items d ++ [x])
  /\ (forall x, Deque.len d = window_size (self p) ->
        Deque.items (Deque.append x d) = tl (Deque.items d ++ [x]))
  /\ (forall x oldest rest,
        Deque.items d = oldest :: rest ->
        Deque.len d = window_size (self p) ->
        Deque.items (Deque.append x d) = rest ++ [x]).
Proof.
  intros Hr d. destruct (reachable_inv p Hr) as (Hm & H0 & Hl & _).
  fold d in Hm, Hl. repeat split.
  - lia.
  - intros x Hlt. apply append_not_full. lia.
  - intros x Heq. apply append_full. lia.
  - intros x oldest rest Hit Heq. rewrite append_full by lia.
    rewrite Hit. reflexivity.
Qed.

(** C10. In every reachable process that is HALF_OPEN,
    [half_open_success] equals [half_open_calls]; the next recorded success
    therefore closes the breaker exactly when the incremented
    [half_open_calls] reaches [half_open_max_calls]. *)
Theorem half_open_counters_agree {W} (p : Proc W) :
  reachable p ->
  state (self p) = HALF_OPEN ->
  half_open_success (self p) = half_open_calls (self p)
  /\ (forall now : float,
        state (self (exec (_on_success now) p)) = CLOSED
        <-> half_open_max_calls (self p) <= half_open_calls (self p) + 1).
Proof.
  intros Hr Hst. destruct (reachable_inv p Hr) as (_ & _ & _ & Hh & _).
  specialize (Hh Hst). split; [exact Hh | ].
  intros now. open_proc p. py_unfold. simpl.
  destruct (Z.leb_spec half_open_max_calls0 (half_open_calls0 + 1));
    rewrite Z.eqb_refl; simpl; split; intros; try congruence; lia.
Qed.

(** ** Construction *)

(** C5, as stated, fails: a configuration invalid in any one of the four
    ways, or in all of them, is accepted and a breaker is built. *)
Lemma init_accepts_invalid_configurations :
  (spec_valid_configuration 50 0 2 3 = false
   /\ __init__ 50 0 2 3
      = Return (mkCircuitBreaker 50 0 2 3 CLOSED None (Deque.mk 0 []) 0 0))
  /\ (spec_valid_configuration 150 4 2 3 = false
      /\ __init__ 150 4 2 3
         = Return (mkCircuitBreaker 150 4 2 3 CLOSED None (Deque.mk 4 []) 0 0))
  /\ (spec_valid_configuration 50 4 0 3 = false
      /\ __init__ 50 4 0 3
         = Return (mkCircuitBreaker 50 4 0 3 CLOSED None (Deque.mk 4 []) 0 0))
  /\ (spec_valid_configuration 50 4 2 (-1) = false
      /\ __init__ 50 4 2 (-1)
         = Return (mkCircuitBreaker 50 4 2 (-1) CLOSED None (Deque.mk 4 []) 0 0))
  /\ (spec_valid_configuration 150 0 0 (-1) = false
      /\ __init__ 150 0 0 (-1)
         = Return (mkCircuitBreaker 150 0 0 (-1) CLOSED None (Deque.mk 0 []) 0 0)).
Proof. repeat split. Qed.

(** C5, amended. Construction checks none of the settings itself. With
    [0 <= window_size < 2^63] it builds a breaker, CLOSED with an empty
    window, no timestamp and both counters 0, whatever the threshold,
    [half_open_max_calls] and [open_state_wait] are: a [window_size] of 0,
    a threshold outside 0 to 100, a non-positive [half_open_max_calls] and
    a negative [open_state_wait] are all accepted. A negative [window_size]
    fails at construction, with the error of the deque constructor:
    [ValueError] from [-2^63] up, [OverflowError] below. *)
Theorem init_checks_window_sign_only
    (thr : float) (ws hmc : Z) (wait : float) :
  (0 <= ws < 2 ^ 63 ->
   __init__ thr ws hmc wait
   = Return (mkCircuitBreaker thr ws hmc wait CLOSED None (Deque.mk ws []) 0 0))
  /\ (- 2 ^ 63 <= ws < 0 ->
      __init__ thr ws hmc wait
      = Raise (mkExn ValueError "maxlen must be non-negative"))
  /\ (ws < - 2 ^ 63 ->
      __init__ thr ws hmc wait
      = Raise (mkExn OverflowError "Python int too large to convert to C ssize_t")).
Proof.
  unfold __init__, Deque.new.
  destruct (Z.ltb_spec ws (- 2 ^ 63)); destruct (Z.leb_spec (2 ^ 63) ws);
    destruct (Z.ltb_spec ws 0); cbn [orb];
    repeat split; intros; try reflexivity; lia.
Qed.

(** A [window_size] of [2^63] or more does not fit the deque either. *)
Lemma init_overflow (thr : float) (ws hmc : Z) (wait : float) :
  2 ^ 63 <= ws ->
  __init__ thr ws hmc wait
  = Raise (mkExn OverflowError "Python int too large to convert to C ssize_t").
Proof.
  intros Hws. unfold __init__, Deque.new.
  destruct (Z.leb_spec (2 ^ 63) ws); [ | lia ].
  rewrite orb_true_r. reflexivity.
Qed.

(** ** What a transition reports *)

(** C6, as stated, fails: the transition itself formats and prints a line,
    and that line is the same for a trip out of CLOSED at one time and a
    trip out of HALF_OPEN at another, so neither the previous mode nor the
    time can be read off what is reported. *)
Lemma transition_report_counterexample :
  state (self demo_closed) = CLOSED
  /\ state (self demo_trial) = HALF_OPEN
  /\ stdout (exec (_transition_to_open 103) demo_closed) = ["[TRANSITION] → OPEN"]
  /\ stdout (exec (_transition_to_open 107) demo_trial) = ["[TRANSITION] → OPEN"]
  /\ ~ (exists decode : list string -> State * State * float,
          forall (p : Proc unit) (now : float),
            decode (stdout (exec (_transition_to_open now) p))
            = (state (self p), OPEN, now)).
Proof.
  repeat split.
  intros [decode H].
  pose proof (H demo_closed 103%float) as H1.
  pose proof (H demo_trial 107%float) as H2.
  change (stdout (exec (_transition_to_open 107) demo_trial))
    with (stdout (exec (_transition_to_open 103) demo_closed)) in H2.
  rewrite H1 in H2. discriminate H2.
Qed.

Ltac run_call f :=
  repeat match goal with
    | |- context [if ?c then _ else _] => destruct c eqn:?; simpl
    | |- context [f ?w] => destruct (f w) as [[? | ?] ?]; simpl
    end.

Ltac give_modes ms :=
  exists ms; simpl; split;
  [ rewrite ?app_nil_r, <- ?app_assoc; reflexivity
  | repeat split; solve [discriminate | reflexivity] ].

(** C6, amended. Each transition sets the mode and prints one line,
    [[TRANSITION] → ] followed by the name of the new mode, and reports
    nothing else; over a whole call, what the breaker prints is exactly
    those lines for the changes of mode the call went through, in order. *)
Theorem transitions_print_new_mode {W} (p : Proc W) (now : float) :
  exec (_transition_to_open now) p
  = mkProc (set_last_failure_time (Some now) (set_state OPEN (self p)))
      (stdout p ++ ["[TRANSITION] → OPEN"]) (world p)
  /\ exec _transition_to_half_open p
     = mkProc (set_half_open_success 0
                 (set_half_open_calls 0 (set_state HALF_OPEN (self p))))
         (stdout p ++ ["[TRANSITION] → HALF_OPEN"]) (world p)
  /\ exec _transition_to_closed p
     = mkProc (set_recent_calls (Deque.clear (recent_calls (self p)))
                 (set_state CLOSED (self p)))
         (stdout p ++ ["[TRANSITION] → CLOSED"]) (world p)
  /\ (forall (R : Type) (now_check : float) (func : W -> result R * W),
        exists modes : list State,
          stdout (exec (call now_check now func) p)
          = stdout p ++ map transition_line modes
          /\ path (state (self p)) modes
               (state (self (exec (call now_check now func) p)))).
Proof.
  repeat split.
  intros R now_check func.
  destruct p as [cb out w]; destruct cb as [? ? ? ? st lft ? ? ?].
  py_unfold. simpl.
  destruct st; simpl; [ | destruct lft; simpl | ]; run_call func;
    first [ give_modes (@nil State)
          | give_modes [OPEN] | give_modes [HALF_OPEN] | give_modes [CLOSED]
          | give_modes [HALF_OPEN; CLOSED] | give_modes [HALF_OPEN; OPEN] ].
Qed.

(** ** The properties on the run of the demo *)

Lemma demo_open_reachable : reachable demo_open.
Proof.
  unfold demo_open. do 3 apply reach_call.
  apply (reach_init 50 4 2 3). reflexivity.
Qed.

Lemma demo_half_open_reachable : reachable demo_half_open.
Proof. unfold demo_half_open. apply reach_call. exact demo_open_reachable. Qed.

(** The run of the script: tripped after a success and two failures, the
    service having run three times. *)
Example demo_open_run :
  self demo_open
  = mkCircuitBreaker 50 4 2 3 OPEN (Some 102%float)
      (Deque.mk 4 [true; false; false]) 0 0
  /\ stdout demo_open = ["[TRANSITION] → OPEN"]
  /\ world demo_open = 3%nat.
Proof. repeat split. Qed.

(** Two failures among four entries are a rate of exactly 50, which does
    not trip a threshold of 50; one failure alone in a window of capacity 4
    is a rate of 100. The rate is the binary64 value Python computes: 7
    failures among 25 entries give 28.000000000000004. *)
Example failure_rate_values :
  _current_failure_rate
    (mkCircuitBreaker 50 4 2 3 CLOSED None
       (Deque.mk 4 [true; false; false; true]) 0 0) = 50%float
  /\ state (self (exec (_on_success 100)
       (mkProc (mkCircuitBreaker 50 4 2 3 CLOSED None
                  (Deque.mk 4 [true; false; false]) 0 0) [] tt))) = CLOSED
  /\ _current_failure_rate
       (mkCircuitBreaker 50 4 2 3 CLOSED None (Deque.mk 4 [false]) 0 0)
     = 100%float
  /\ (float_of_int 7 / float_of_int 25 * 100)%float = 0x1.c000000000001p+4%float
  /\ float_gt (float_of_int 7 / float_of_int 25 * 100)%float 28 = true.
Proof. repeat split. Qed.

(** A full window drops its oldest entry for the new one. *)
Example full_window_append :
  Deque.append false (Deque.mk 4 [true; false; false; true])
  = Deque.mk 4 [false; false; true; false]
  /\ Deque.append true (Deque.mk 0 []) = Deque.mk 0 [].
Proof. repeat split. Qed.


Lemma half_open_success_step_witness :
  state (self demo_half_open) = HALF_OPEN
  /\ half_open_calls (self (exec (_on_success 107) demo_half_open)) = 2
  /\ half_open_success (self (exec (_on_success 107) demo_half_open)) = 2
  /\ (state (self (exec (_on_success 107) demo_half_open)) = CLOSED
      <-> half_open_max_calls (self demo_half_open) <= 1 + 1 /\ 1 + 1 = 1 + 1).
Proof.
  split; [reflexivity | ].
  destruct (half_open_success_step 107 demo_half_open eq_refl)
    as (_ & Hcalls & Hsucc & Hiff & _).
  split; [exact Hcalls | split; [exact Hsucc | exact Hiff]].
Defined.

Lemma half_open_failure_step_witness :
  state (self demo_half_open) = HALF_OPEN
  /\ state (self (exec (_on_failure 107) demo_half_open)) = OPEN
  /\ last_failure_time (self (exec (_on_failure 107) demo_half_open))
     = Some 107%float
  /\ half_open_calls (self (exec (_on_failure 107) demo_half_open)) = 1 + 1.
Proof.
  split; [reflexivity | ].
  destruct (half_open_failure_step 107 demo_half_open eq_refl)
    as (_ & Hcalls & _ & Hst & Ht & _).
  split; [exact Hst | split; [exact Ht | exact Hcalls]].
Defined.

Lemma half_open_budget_exhausted_witness :
  (state (self demo_exhausted) = HALF_OPEN
   /\ half_open_max_calls (self demo_exhausted)
      <= half_open_calls (self demo_exhausted)
   /\ call 108 108 (service false) demo_exhausted
      = (Raise (mkExn Exception half_open_message), demo_exhausted))
  /\ (reachable demo_no_budget
      /\ state (self demo_no_budget) = HALF_OPEN
      /\ half_open_max_calls (self demo_no_budget)
         <= half_open_calls (self demo_no_budget)
      /\ call 108 108 (service false) demo_no_budget
         = (Raise (mkExn Exception half_open_message), demo_no_budget)).
Proof.
  split.
  - split; [reflexivity | split; [simpl; lia | ] ].
    apply (half_open_budget_exhausted 108 108 (service false) demo_exhausted).
    + reflexivity.
    + simpl; lia.
  - split; [ | split; [reflexivity | split; [vm_compute; discriminate | ] ] ].
    + unfold demo_no_budget. do 4 apply reach_call.
      apply (reach_init 50 4 0 3). reflexivity.
    + apply (half_open_budget_exhausted 108 108 (service false) demo_no_budget).
      * reflexivity.
      * vm_compute; discriminate.
Defined.


Lemma closed_success_step_witness :
  (state (self demo_degraded) = CLOSED
   /\ Deque.items (recent_calls (self (exec (_on_success 105) demo_degraded)))
      = [false; false; false; true]
   /\ state (self (exec (_on_success 105) demo_degraded)) = OPEN
   /\ last_failure_time (self (exec (_on_success 105) demo_degraded))
      = Some 105%float
   /\ stdout (exec (_on_success 105) demo_degraded) = ["[TRANSITION] → OPEN"])
  /\ (__init__ (-1) 4 2 3 = Return (self demo_negative)
      /\ state (self demo_negative) = CLOSED
      /\ state (self (exec (_on_success 100) demo_negative)) = OPEN)
  /\ (state (self demo_start) = CLOSED
      /\ Deque.items (recent_calls (self (exec (_on_success 100) demo_start)))
         = [true]
      /\ state (self (exec (_on_success 100) demo_start)) = CLOSED).
Proof.
  pose proof (closed_success_step 105 demo_degraded eq_refl) as Hdegraded.
  pose proof (closed_success_step 100 demo_negative eq_refl) as Hnegative.
  pose proof (closed_success_step 100 demo_start eq_refl) as Hstart.
  cbv zeta in Hdegraded, Hnegative, Hstart.
  destruct Hdegraded as (_ & _ & Hitems & Htrip & _).
  destruct (Htrip eq_refl) as (Hopen & Htime & _ & Hout).
  destruct Hnegative as (_ & _ & _ & Htrip' & _).
  destruct (Htrip' eq_refl) as (Hopen' & _).
  destruct Hstart as (_ & _ & Hitems' & _ & Hstay).
  destruct (Hstay eq_refl) as (Hclosed & _).
  split; [ | split ].
  - split; [reflexivity | ].
    split; [exact Hitems | split; [exact Hopen | split; [exact Htime | exact Hout]]].
  - split; [reflexivity | split; [reflexivity | exact Hopen'] ].
  - split; [reflexivity | split; [exact Hitems' | exact Hclosed] ].
Defined.

Lemma window_bounded_fifo_witness :
  Deque.len (recent_calls (self demo_open)) <= window_size (self demo_open)
  /\ Deque.items (Deque.append true (recent_calls (self demo_open)))
     = Deque.items (recent_calls (self demo_open)) ++ [true].
Proof.
  destruct (window_bounded_fifo demo_open demo_open_reachable)
    as (Hle & Hroom & _).
  split; [exact Hle | ].
  apply Hroom. vm_compute. reflexivity.
Defined.

Lemma half_open_counters_agree_witness :
  state (self demo_half_open) = HALF_OPEN
  /\ half_open_success (self demo_half_open)
     = half_open_calls (self demo_half_open).
Proof.
  split; [reflexivity | ].
  exact (proj1 (half_open_counters_agree demo_half_open
                  demo_half_open_reachable eq_refl)).
Defined.

(** ** The shape of a call *)

(** The recording step, by the mode and the outcome. *)
Lemma invoke_and_record_cases {W R} (now : float)
    (func : W -> result R * W) (p : Proc W) :
  invoke_and_record now func p
  = match func (world p) with
    | (Return v, w) =>
        (Return v, exec (_on_success now) (mkProc (self p) (stdout p) w))
    | (Raise e, w) =>
        if isinstance_Exception e
        then (Raise e, exec (_on_failure now) (mkProc (self p) (stdout p) w))
        else (Raise e, mkProc (self p) (stdout p) w)
    end.
Proof.
  unfold invoke_and_record, try_except, bind, invoke, ret, raise, exec.
  destruct (func (world p)) as [[v | e] w].
  - pose proof (on_success_returns now (mkProc (self p) (stdout p) w)) as Hr.
    unfold eval in Hr.
    destruct (_on_success now (mkProc (self p) (stdout p) w)) as [[[] | e] q];
      [reflexivity | discriminate Hr].
  - destruct (isinstance_Exception e); [ | reflexivity ].
    pose proof (on_failure_returns now (mkProc (self p) (stdout p) w)) as Hr.
    unfold eval in Hr.
    destruct (_on_failure now (mkProc (self p) (stdout p) w)) as [[[] | e'] q];
      [reflexivity | discriminate Hr].
Qed.

(** The admission step, by the mode. *)
Lemma call_cases {W R} (now_check now_record : float)
    (func : W -> result R * W) (p : Proc W) :
  call now_check now_record func p
  = match state (self p) with
    | CLOSED => invoke_and_record now_record func p
    | HALF_OPEN =>
        if half_open_max_calls (self p) <=? half_open_calls (self p)
        then (Raise (mkExn Exception half_open_message), p)
        else invoke_and_record now_record func p
    | OPEN =>
        match last_failure_time (self p) with
        | None =>
            (Raise (mkExn TypeError
                      "unsupported operand type(s) for -: 'float' and 'NoneType'"),
             p)
        | Some t0 =>
            if float_ge (now_check - t0)%float (open_state_wait (self p))
            then
              let q := exec _transition_to_half_open p in
              if half_open_max_calls (self p) <=? 0
              then (Raise (mkExn Exception half_open_message), q)
              else invoke_and_record now_record func q
            else (Raise (mkExn Exception open_message), p)
        end
    end.
Proof.
  destruct p as [cb out w]; destruct cb as [? ? ? ? st lft ? ? ?].
  unfold call, bind, get_self, ret, raise. simpl.
  destruct st; simpl.
  - reflexivity.
  - destruct lft as [t0 | ]; simpl; [ | reflexivity ].
    destruct (float_ge (now_check - t0)%float open_state_wait0);
      [ | reflexivity ].
    unfold _transition_to_half_open, bind, update_self, print, exec. simpl.
    destruct (half_open_max_calls0 <=? 0); reflexivity.
  - destruct (half_open_max_calls0 <=? half_open_calls0); reflexivity.
Qed.

(** The recording methods, by the mode. *)
Lemma on_success_cases {W} (now : float) (p : Proc W) :
  exec (_on_success now) p
  = match state (self p) with
    | HALF_OPEN =>
        let cb1 := set_half_open_success (half_open_success (self p) + 1)
                     (set_half_open_calls (half_open_calls (self p) + 1) (self p)) in
        if (half_open_max_calls cb1 <=? half_open_calls cb1)
           && (half_open_success cb1 =? half_open_calls cb1)
        then exec _transition_to_closed (mkProc cb1 (stdout p) (world p))
        else mkProc cb1 (stdout p) (world p)
    | _ =>
        let cb1 := set_recent_calls (Deque.append true (recent_calls (self p)))
                     (self p) in
        if float_gt (_current_failure_rate cb1) (failure_rate_threshold cb1)
        then exec (_transition_to_open now) (mkProc cb1 (stdout p) (world p))
        else mkProc cb1 (stdout p) (world p)
    end.
Proof.
  destruct p as [cb out w]; destruct cb as [? ? ? ? st ? ? ? ?].
  py_unfold. simpl. destruct st; simpl; break_ifs; reflexivity.
Qed.

Lemma on_failure_cases {W} (now : float) (p : Proc W) :
  exec (_on_failure now) p
  = match state (self p) with
    | HALF_OPEN =>
        exec (_transition_to_open now)
          (mkProc (set_half_open_calls (half_open_calls (self p) + 1) (self p))
             (stdout p) (world p))
    | _ =>
        let cb1 := set_recent_calls (Deque.append false (recent_calls (self p)))
                     (self p) in
        if float_gt (_current_failure_rate cb1) (failure_rate_threshold cb1)
        then exec (_transition_to_open now) (mkProc cb1 (stdout p) (world p))
        else mkProc cb1 (stdout p) (world p)
    end.
Proof.
  destruct p as [cb out w]; destruct cb as [? ? ? ? st ? ? ? ?].
  py_unfold. simpl. destruct st; simpl; break_ifs; reflexivity.
Qed.

(** ** What a call does to the operation and to the settings *)

(** X1. A call either refuses, raising one of its own exceptions without
    running the operation, or runs the operation once and returns or raises
    exactly what the operation returned or raised. *)
Theorem call_passes_outcome_through {W R} (now_check now_record : float)
    (func : W -> result R * W) (p : Proc W) :
  (eval (call now_check now_record func) p = fst (func (world p))
   /\ world (exec (call now_check now_record func) p) = snd (func (world p)))
  \/ (world (exec (call now_check now_record func) p) = world p
      /\ (eval (call now_check now_record func) p
          = Raise (mkExn Exception open_message)
          \/ eval (call now_check now_record func) p
             = Raise (mkExn Exception half_open_message)
          \/ eval (call now_check now_record func) p
             = Raise (mkExn TypeError
                        "unsupported operand type(s) for -: 'float' and 'NoneType'"))).
Proof.
  unfold eval, exec. rewrite call_cases.
  pose proof (invoke_and_record_runs_func now_record func p) as [Hw Hr].
  pose proof (invoke_and_record_runs_func now_record func
                (exec _transition_to_half_open p)) as [Hw' Hr'].
  unfold eval, exec in *.
  destruct (state (self p)).
  - left. split; assumption.
  - destruct (last_failure_time (self p)) as [t0 | ]; [ | right; simpl; auto ].
    destruct (float_ge (now_check - t0)%float (open_state_wait (self p)));
      [ | right; simpl; auto ].
    cbv zeta.
    destruct (half_open_max_calls (self p) <=? 0).
    + right. simpl. auto.
    + left. split; [exact Hr' | exact Hw'].
  - destruct (half_open_max_calls (self p) <=? half_open_calls (self p)).
    + right. simpl. auto.
    + left. split; assumption.
Qed.

Lemma same_settings_refl (a : CircuitBreaker) : same_settings a a.
Proof. unfold same_settings. repeat split. Qed.

Lemma same_settings_trans (a b c : CircuitBreaker) :
  same_settings a b -> same_settings b c -> same_settings a c.
Proof. unfold same_settings. intuition congruence. Qed.

Lemma on_success_settings {W} (now : float) (p : Proc W) :
  same_settings (self p) (self (exec (_on_success now) p)).
Proof.
  rewrite on_success_cases. unfold same_settings.
  destruct (state (self p)); cbv zeta; break_ifs; simpl;
    rewrite ?append_maxlen; repeat split.
Qed.

Lemma on_failure_settings {W} (now : float) (p : Proc W) :
  same_settings (self p) (self (exec (_on_failure now) p)).
Proof.
  rewrite on_failure_cases. unfold same_settings.
  destruct (state (self p)); cbv zeta; break_ifs; simpl;
    rewrite ?append_maxlen; repeat split.
Qed.

Lemma invoke_and_record_settings {W R} (now : float)
    (func : W -> result R * W) (p : Proc W) :
  same_settings (self p) (self (exec (invoke_and_record now func) p)).
Proof.
  unfold exec at 1. rewrite invoke_and_record_cases.
  destruct (func (world p)) as [[v | e] w]; simpl.
  - apply (on_success_settings now (mkProc (self p) (stdout p) w)).
  - destruct (isinstance_Exception e); simpl.
    + apply (on_failure_settings now (mkProc (self p) (stdout p) w)).
    + apply same_settings_refl.
Qed.

Lemma call_settings {W R} (now_check now_record : float)
    (func : W -> result R * W) (p : Proc W) :
  same_settings (self p) (self (exec (call now_check now_record func) p)).
Proof.
  unfold exec at 1. rewrite call_cases.
  pose proof (invoke_and_record_settings now_record func p) as H1.
  pose proof (invoke_and_record_settings now_record func
                (exec _transition_to_half_open p)) as H2.
  assert (Hh : same_settings (self p) (self (exec _transition_to_half_open p)))
    by (unfold same_settings; repeat split).
  unfold exec in *.
  destruct (state (self p)).
  - exact H1.
  - destruct (last_failure_time (self p)) as [t0 | ];
      [ | apply same_settings_refl ].
    destruct (float_ge (now_check - t0)%float (open_state_wait (self p)));
      [ | apply same_settings_refl ].
    cbv zeta. destruct (half_open_max_calls (self p) <=? 0).
    + exact Hh.
    + exact (same_settings_trans _ _ _ Hh H2).
  - destruct (half_open_max_calls (self p) <=? half_open_calls (self p)).
    + apply same_settings_refl.
    + exact H1.
Qed.

(** X2. Whatever calls are made, with whatever outcomes, the four settings
    given at construction and the capacity of the window stay as they
    were. *)
Theorem calls_keep_settings {W R}
    (cs : list (float * float * (W -> result R * W))) (p : Proc W) :
  failure_rate_threshold (self (call_all cs p)) = failure_rate_threshold (self p)
  /\ window_size (self (call_all cs p)) = window_size (self p)
  /\ half_open_max_calls (self (call_all cs p)) = half_open_max_calls (self p)
  /\ open_state_wait (self (call_all cs p)) = open_state_wait (self p)
  /\ Deque.maxlen (recent_calls (self (call_all cs p)))
     = Deque.maxlen (recent_calls (self p)).
Proof.
  assert (H : same_settings (self p) (self (call_all cs p))).
  { revert p. induction cs as [ | [[t1 t2] func] rest IH]; intros p; simpl.
    - apply same_settings_refl.
    - exact (same_settings_trans _ _ _ (call_settings t1 t2 func p)
               (IH (exec (call t1 t2 func) p))). }
  unfold same_settings in H. intuition congruence.
Qed.

(** ** Calls while CLOSED, and exceptions that are not recorded *)

(** X3. A call made while CLOSED is never refused. When the operation
    raises an [Exception], the call raises that same exception, after
    appending [False] to the window; the breaker trips (OPEN, with the time
    recorded) exactly when the rate of the updated window is above the
    threshold, and the half-open counters are not touched. *)
Theorem closed_call_failure {W R} (now_check now_record : float)
    (func : W -> result R * W) (p : Proc W) (e : exn) (w : W) :
  state (self p) = CLOSED ->
  func (world p) = (Raise e, w) ->
  isinstance_Exception e = true ->
  let p' := exec (call now_check now_record func) p in
  let cb1 := set_recent_calls (Deque.append false (recent_calls (self p))) (self p) in
  eval (call now_check now_record func) p = Raise e
  /\ world p' = w
  /\ recent_calls (self p') = Deque.append false (recent_calls (self p))
  /\ half_open_calls (self p') = half_open_calls (self p)
  /\ half_open_success (self p') = half_open_success (self p)
  /\ self p'
     = (if float_gt (_current_failure_rate cb1) (failure_rate_threshold (self p))
        then set_last_failure_time (Some now_record) (set_state OPEN cb1)
        else cb1).
Proof.
  intros Hst Hf He. unfold eval, exec.
  rewrite call_cases, Hst, invoke_and_record_cases, Hf, He.
  rewrite on_failure_cases. simpl. rewrite Hst. cbv zeta.
  change (failure_rate_threshold
            (set_recent_calls (Deque.append false (recent_calls (self p))) (self p)))
    with (failure_rate_threshold (self p)).
  destruct (float_gt
              (_current_failure_rate
                 (set_recent_calls (Deque.append false (recent_calls (self p)))
                    (self p)))
              (failure_rate_threshold (self p))); repeat split.
Qed.

(** X4. An exception of the operation that is not an [Exception] (a
    [KeyboardInterrupt], say) passes through a CLOSED breaker, or a
    HALF_OPEN one with trials left, without being recorded: no entry in the
    window, no trial counted, no transition, nothing printed. *)
Theorem base_exception_not_recorded {W R} (now_check now_record : float)
    (func : W -> result R * W) (p : Proc W) (e : exn) (w : W) :
  func (world p) = (Raise e, w) ->
  isinstance_Exception e = false ->
  state (self p) = CLOSED
  \/ (state (self p) = HALF_OPEN
      /\ half_open_calls (self p) < half_open_max_calls (self p)) ->
  call now_check now_record func p = (Raise e, mkProc (self p) (stdout p) w).
Proof.
  intros Hf He Hst. rewrite call_cases.
  destruct Hst as [Hst | [Hst Hlt]]; rewrite Hst.
  - rewrite invoke_and_record_cases, Hf, He. reflexivity.
  - destruct (Z.leb_spec (half_open_max_calls (self p)) (half_open_calls (self p)));
      [lia | ].
    rewrite invoke_and_record_cases, Hf, He. reflexivity.
Qed.

(** ** The counters in reachable processes *)

Ltac bool_to_prop :=
  repeat match goal with
    | H : (_ && _)%bool = true |- _ => apply andb_true_iff in H; destruct H
    | H : (_ && _)%bool = false |- _ => apply andb_false_iff in H; destruct H
    | H : (_ <=? _) = true |- _ => apply Z.leb_le in H
    | H : (_ <=? _) = false |- _ => apply Z.leb_gt in H
    | H : (_ =? _) = true |- _ => apply Z.eqb_eq in H
    | H : (_ =? _) = false |- _ => apply Z.eqb_neq in H
    end.

Ltac counters_cases :=
  unfold counters_inv in *; cbv zeta; break_ifs; simpl in *; bool_to_prop;
  intuition (try congruence; try lia).

Lemma on_success_counters {W} (now : float) (p : Proc W) :
  counters_inv (self p) -> counters_inv (self (exec (_on_success now) p)).
Proof.
  intros Hinv. rewrite on_success_cases.
  destruct p as [cb out w]; destruct cb as [? ? ? ? st ? ? ? ?]; simpl in *.
  destruct st; counters_cases.
Qed.

Lemma on_failure_counters {W} (now : float) (p : Proc W) :
  counters_inv (self p) -> counters_inv (self (exec (_on_failure now) p)).
Proof.
  intros Hinv. rewrite on_failure_cases.
  destruct p as [cb out w]; destruct cb as [? ? ? ? st ? ? ? ?]; simpl in *.
  destruct st; counters_cases.
Qed.

Lemma invoke_and_record_counters {W R} (now : float)
    (func : W -> result R * W) (p : Proc W) :
  counters_inv (self p) ->
  counters_inv (self (exec (invoke_and_record now func) p)).
Proof.
  intros Hinv. unfold exec at 1. rewrite invoke_and_record_cases.
  destruct (func (world p)) as [[v | e] w]; simpl.
  - apply (on_success_counters now (mkProc (self p) (stdout p) w) Hinv).
  - destruct (isinstance_Exception e); simpl.
    + apply (on_failure_counters now (mkProc (self p) (stdout p) w) Hinv).
    + exact Hinv.
Qed.

Lemma half_open_counters {W} (p : Proc W) :
  counters_inv (self (exec _transition_to_half_open p)).
Proof.
  destruct p as [cb out w]; destruct cb. unfold counters_inv. simpl.
  intuition lia.
Qed.

Lemma call_counters {W R} (now_check now_record : float)
    (func : W -> result R * W) (p : Proc W) :
  counters_inv (self p) ->
  counters_inv (self (exec (call now_check now_record func) p)).
Proof.
  intros Hinv. unfold exec at 1. rewrite call_cases.
  pose proof (invoke_and_record_counters now_record func p Hinv) as H1.
  pose proof (invoke_and_record_counters now_record func
                (exec _transition_to_half_open p) (half_open_counters p)) as H2.
  pose proof (half_open_counters p) as Hh.
  unfold exec in *.
  destruct (state (self p)).
  - exact H1.
  - destruct (last_failure_time (self p)) as [t0 | ]; [ | exact Hinv ].
    destruct (float_ge (now_check - t0)%float (open_state_wait (self p)));
      [ | exact Hinv ].
    cbv zeta. destruct (half_open_max_calls (self p) <=? 0).
    + exact Hh.
    + exact H2.
  - destruct (half_open_max_calls (self p) <=? half_open_calls (self p)).
    + exact Hinv.
    + exact H1.
Qed.

Lemma reachable_counters {W} (p : Proc W) :
  reachable p -> counters_inv (self p).
Proof.
  induction 1 as [thr ws hmc wait cb out w Hinit | R t1 t2 func p _ IH | p out w _ IH].
  - destruct (init_returns thr ws hmc wait cb Hinit) as [_ ->].
    unfold counters_inv. simpl.
    intuition (try lia; try discriminate).
  - exact (call_counters t1 t2 func p IH).
  - exact IH.
Qed.

(** X5. For a breaker built with [half_open_max_calls >= 1] and used
    through [call] only, a HALF_OPEN breaker always has trials left, so a
    call made outside OPEN is never refused: it runs the operation and
    records the outcome. *)
Theorem trial_budget_never_exhausted {W R} (now_check now_record : float)
    (func : W -> result R * W) (p : Proc W) :
  reachable p ->
  0 < half_open_max_calls (self p) ->
  state (self p) <> OPEN ->
  (state (self p) = HALF_OPEN ->
   half_open_calls (self p) < half_open_max_calls (self p))
  /\ call now_check now_record func p = invoke_and_record now_record func p.
Proof.
  intros Hr Hmax Hst.
  destruct (reachable_counters p Hr) as (_ & _ & _ & _ & Hbudget).
  split; [exact (Hbudget Hmax) | ].
  rewrite call_cases. destruct (state (self p)) eqn:E.
  - reflexivity.
  - congruence.
  - specialize (Hbudget Hmax eq_refl).
    destruct (Z.leb_spec (half_open_max_calls (self p)) (half_open_calls (self p)));
      [lia | reflexivity].
Qed.

(** X6. In every reachable process the successes among the trials are
    never negative and never more than the trials counted, the trials
    counted exceed them by at most one, and outside OPEN the two counters
    are equal. *)
Theorem counters_bounded {W} (p : Proc W) :
  reachable p ->
  0 <= half_open_success (self p)
  /\ half_open_success (self p) <= half_open_calls (self p)
  /\ half_open_calls (self p) <= half_open_success (self p) + 1
  /\ (state (self p) <> OPEN ->
      half_open_success (self p) = half_open_calls (self p)).
Proof.
  intros Hr. destruct (reachable_counters p Hr) as (H0 & H1 & H2 & H3 & _).
  repeat split; assumption.
Qed.

(** ** A window of capacity 0 *)

Lemma zero_window_call {W R} (now_check now_record : float)
    (func : W -> result R * W) (p : Proc W) :
  state (self p) = CLOSED ->
  recent_calls (self p) = Deque.mk 0 [] ->
  float_gt 0 (failure_rate_threshold (self p)) = false ->
  self (exec (call now_check now_record func) p) = self p.
Proof.
  intros Hst Hrc Hthr. unfold exec at 1.
  rewrite call_cases, Hst, invoke_and_record_cases.
  destruct p as [cb out w]; destruct cb as [? ? ? ? st ? rc ? ?]; simpl in *.
  subst st rc.
  destruct (func w) as [[v | e] w']; simpl.
  - rewrite on_success_cases. simpl.
    change (_current_failure_rate _) with 0%float.
    rewrite Hthr. reflexivity.
  - destruct (isinstance_Exception e); simpl; [ | reflexivity ].
    rewrite on_failure_cases. simpl.
    change (_current_failure_rate _) with 0%float.
    rewrite Hthr. reflexivity.
Qed.

Lemma reachable_zero_window {W} (p : Proc W) :
  reachable p ->
  window_size (self p) = 0 ->
  float_gt 0 (failure_rate_threshold (self p)) = false ->
  state (self p) = CLOSED /\ recent_calls (self p) = Deque.mk 0 [].
Proof.
  induction 1 as [thr ws hmc wait cb out w Hinit | R t1 t2 func p _ IH | p out w _ IH];
    intros Hws Hthr.
  - destruct (init_returns thr ws hmc wait cb Hinit) as [_ ->].
    simpl in *. subst ws. split; reflexivity.
  - destruct (call_settings t1 t2 func p) as (Ht & Hw & _).
    rewrite <- Hw in Hws. rewrite <- Ht in Hthr.
    destruct (IH Hws Hthr) as [Hst Hrc].
    rewrite (zero_window_call t1 t2 func p Hst Hrc Hthr). split; assumption.
  - simpl in *. exact (IH Hws Hthr).
Qed.

(** X7. A breaker built with [window_size=0] and a threshold that 0.0 does
    not exceed keeps an empty window, whose rate is 0.0: it stays CLOSED
    for ever, no call changes it, and every call runs the operation. *)
Theorem zero_window_never_trips {W R} (now_check now_record : float)
    (func : W -> result R * W) (p : Proc W) :
  reachable p ->
  window_size (self p) = 0 ->
  float_gt 0 (failure_rate_threshold (self p)) = false ->
  state (self p) = CLOSED
  /\ Deque.items (recent_calls (self p)) = []
  /\ self (exec (call now_check now_record func) p) = self p
  /\ eval (call now_check now_record func) p = fst (func (world p))
  /\ world (exec (call now_check now_record func) p) = snd (func (world p)).
Proof.
  intros Hr Hws Hthr.
  destruct (reachable_zero_window p Hr Hws Hthr) as [Hst Hrc].
  pose proof (invoke_and_record_runs_func now_record func p) as [Hw He].
  repeat split.
  - exact Hst.
  - rewrite Hrc. reflexivity.
  - exact (zero_window_call now_check now_record func p Hst Hrc Hthr).
  - unfold eval in *. rewrite call_cases, Hst. exact He.
  - unfold exec in *. rewrite call_cases, Hst. exact Hw.
Qed.

(** ** The window as the latest outcomes *)

Lemma lastn_app_lastn {A} (n : nat) (l r : list A) :
  lastn n (lastn n l ++ r) = lastn n (l ++ r).
Proof.
  unfold lastn.
  assert (Hs : skipn (List.length l - n) l ++ r
               = skipn (List.length l - n) (l ++ r)).
  { rewrite skipn_app.
    replace (List.length l - n - List.length l)%nat with 0%nat by lia.
    reflexivity. }
  rewrite Hs, skipn_skipn. f_equal.
  rewrite length_skipn, !length_app. lia.
Qed.

Lemma append_lastn (x : bool) (d : Deque.deque) :
  0 <= Deque.maxlen d ->
  Deque.len d <= Deque.maxlen d ->
  Deque.items (Deque.append x d)
  = lastn (Z.to_nat (Deque.maxlen d)) (Deque.items d ++ [x]).
Proof.
  intros H0 Hle. unfold lastn.
  destruct (Z.eq_dec (Deque.len d) (Deque.maxlen d)) as [Heq | Hne].
  - rewrite (append_full x d Heq). unfold Deque.len in Heq.
    rewrite length_app. simpl.
    replace (List.length (Deque.items d) + 1 - Z.to_nat (Deque.maxlen d))%nat
      with 1%nat by lia.
    reflexivity.
  - rewrite (append_not_full x d) by lia. unfold Deque.len in *.
    rewrite length_app. simpl.
    replace (List.length (Deque.items d) + 1 - Z.to_nat (Deque.maxlen d))%nat
      with 0%nat by lia.
    reflexivity.
Qed.

Lemma record_appends {W} (b : bool) (now : float) (p : Proc W) :
  state (self p) <> HALF_OPEN ->
  let p' := exec (if b then _on_success now else _on_failure now) p in
  recent_calls (self p') = Deque.append b (recent_calls (self p))
  /\ state (self p') <> HALF_OPEN.
Proof.
  intros Hst p'. subst p'.
  destruct b; [rewrite on_success_cases | rewrite on_failure_cases];
    destruct (state (self p)) eqn:E; try congruence; cbv zeta;
    break_ifs; simpl; rewrite ?E; split; congruence.
Qed.

(** X8. Outside HALF_OPEN every recorded outcome is appended to the
    window, which therefore holds the latest [window_size] of what it held
    and the outcomes recorded since, oldest first. *)
Theorem window_holds_latest_outcomes {W} (outcomes : list (bool * float))
    (p : Proc W) :
  state (self p) <> HALF_OPEN ->
  0 <= Deque.maxlen (recent_calls (self p)) ->
  Deque.len (recent_calls (self p)) <= Deque.maxlen (recent_calls (self p)) ->
  Deque.items (recent_calls (self (record_all outcomes p)))
  = lastn (Z.to_nat (Deque.maxlen (recent_calls (self p))))
      (Deque.items (recent_calls (self p)) ++ map fst outcomes).
Proof.
  revert p. induction outcomes as [ | [b now] rest IH]; intros p Hst H0 Hle.
  - simpl. rewrite app_nil_r. unfold lastn, Deque.len in *.
    replace (List.length (Deque.items (recent_calls (self p)))
             - Z.to_nat (Deque.maxlen (recent_calls (self p))))%nat
      with 0%nat by lia.
    reflexivity.
  - cbn [record_all map fst].
    destruct (record_appends b now p Hst) as [Hrc Hst'].
    set (p1 := exec (if b then _on_success now else _on_failure now) p) in *.
    assert (Hm : Deque.maxlen (recent_calls (self p1))
                 = Deque.maxlen (recent_calls (self p)))
      by (rewrite Hrc; apply append_maxlen).
    rewrite (IH p1 Hst').
    + rewrite Hm, Hrc, (append_lastn b _ H0 Hle), lastn_app_lastn.
      rewrite <- app_assoc. reflexivity.
    + rewrite Hm. exact H0.
    + rewrite Hm, Hrc. apply append_len_le; assumption.
Qed.

(** ** Recovery *)

Lemma trial_success_call {W R} (now_check now_record : float)
    (func : W -> result R * W) (p : Proc W) (v : R) (w : W) :
  state (self p) = HALF_OPEN ->
  half_open_success (self p) = half_open_calls (self p) ->
  half_open_calls (self p) < half_open_max_calls (self p) ->
  func (world p) = (Return v, w) ->
  let p' := exec (call now_check now_record func) p in
  half_open_calls (self p') = half_open_calls (self p) + 1
  /\ half_open_success (self p') = half_open_calls (self p) + 1
  /\ half_open_max_calls (self p') = half_open_max_calls (self p)
  /\ (half_open_calls (self p) + 1 < half_open_max_calls (self p) ->
      state (self p') = HALF_OPEN
      /\ recent_calls (self p') = recent_calls (self p))
  /\ (half_open_calls (self p) + 1 = half_open_max_calls (self p) ->
      state (self p') = CLOSED
      /\ Deque.items (recent_calls (self p')) = []).
Proof.
  intros Hst Heq Hlt Hf p'. subst p'. unfold exec at 1 2 3 4 5 6 7.
  rewrite call_cases, Hst.
  destruct (Z.leb_spec (half_open_max_calls (self p)) (half_open_calls (self p)));
    [lia | ].
  rewrite invoke_and_record_cases, Hf. cbn [snd].
  rewrite on_success_cases. cbn [self stdout world]. rewrite Hst. cbv zeta.
  destruct p as [cb out w0]; destruct cb as [? ? hmc ? st ? ? calls succ].
  simpl in *. subst succ.
  rewrite Z.eqb_refl, andb_true_r.
  destruct (Z.leb_spec hmc (calls + 1)); simpl; repeat split; intros;
    try lia; assumption.
Qed.

(** X9. A HALF_OPEN breaker with its counters equal and trials left, given
    operations that all return: it stays HALF_OPEN, counting each trial and
    leaving the window alone, as long as fewer calls were made than trials
    were left, and it is CLOSED with an empty window once exactly that
    number of calls was made. *)
Theorem consecutive_successes_close {W R}
    (cs : list (float * float * (W -> result R * W))) (p : Proc W) :
  state (self p) = HALF_OPEN ->
  half_open_success (self p) = half_open_calls (self p) ->
  half_open_calls (self p) < half_open_max_calls (self p) ->
  Forall (fun c => forall w, exists v w', snd c w = (Return v, w')) cs ->
  (Z.of_nat (List.length cs) < half_open_max_calls (self p) - half_open_calls (self p) ->
   state (self (call_all cs p)) = HALF_OPEN
   /\ half_open_calls (self (call_all cs p))
      = half_open_calls (self p) + Z.of_nat (List.length cs)
   /\ recent_calls (self (call_all cs p)) = recent_calls (self p))
  /\ (Z.of_nat (List.length cs) = half_open_max_calls (self p) - half_open_calls (self p) ->
      state (self (call_all cs p)) = CLOSED
      /\ Deque.items (recent_calls (self (call_all cs p))) = []
      /\ half_open_calls (self (call_all cs p)) = half_open_max_calls (self p)
      /\ half_open_success (self (call_all cs p)) = half_open_max_calls (self p)).
Proof.
  revert p. induction cs as [ | [[t1 t2] func] rest IH];
    intros p Hst Heq Hlt Hall.
  - simpl. split; intros Hlen.
    + repeat split; [assumption | lia].
    + lia.
  - inversion Hall as [ | c cs' Hc Hrest]; subst.
    destruct (Hc (world p)) as (v & w' & Hf). simpl in Hf.
    destruct (trial_success_call t1 t2 func p v w' Hst Heq Hlt Hf)
      as (Hcalls & Hsucc & Hmax & Hstay & Hclose).
    cbn [call_all].
    set (p1 := exec (call t1 t2 func) p) in *.
    destruct (Z.eq_dec (half_open_calls (self p) + 1) (half_open_max_calls (self p)))
      as [Hlast | Hmore].
    + destruct (Hclose Hlast) as [Hc1 Hi1].
      split; intros Hlen; cbn [List.length] in Hlen; [lia | ].
      destruct rest as [ | c' rest']; [ | cbn [List.length] in Hlen; lia ].
      simpl. repeat split; try assumption; lia.
    + assert (Hlt1 : half_open_calls (self p) + 1 < half_open_max_calls (self p))
        by lia.
      destruct (Hstay Hlt1) as [Hs1 Hr1].
      assert (Heq1 : half_open_success (self p1) = half_open_calls (self p1))
        by lia.
      assert (Hlt1' : half_open_calls (self p1) < half_open_max_calls (self p1))
        by lia.
      destruct (IH p1 Hs1 Heq1 Hlt1' Hrest) as [IHa IHb].
      rewrite Hcalls, Hmax in IHa, IHb.
      split; intros Hlen; cbn [List.length] in *.
      * destruct IHa as (Ha & Hb & Hc'); [lia | ].
        repeat split; [assumption | lia | congruence].
      * destruct IHb as (Ha & Hb & Hc' & Hd); [lia | ].
        repeat split; assumption.
Qed.

(** ** The script *)

Lemma bind_return {W A B} (m : Py W A) (k : A -> Py W B) (p p' : Proc W) (a : A) :
  m p = (Return a, p') -> bind m k p = k a p'.
Proof. intros H. unfold bind. rewrite H. reflexivity. Qed.

Ltac run_step :=
  unfold step, unstable_service, try_except, bind, print;
  py_unfold; simpl.

(** X10. The script, for every clock on which the call number 3 comes
    less than the wait of 3 after the trip recorded by the call number 2,
    and the call number 4 at least the wait after it: the breaker is built,
    the seven calls go through success, failure, failure with the trip,
    refusal, first trial, second trial closing the breaker, and success;
    the script prints these thirteen lines and ends with a CLOSED breaker
    whose window holds the one success made after recovery. *)
Theorem script_run {W} (clock : nat -> float * float) (out : list string) (w : W) :
  float_ge (fst (clock 3%nat) - snd (clock 2%nat))%float 3 = false ->
  float_ge (fst (clock 4%nat) - snd (clock 2%nat))%float 3 = true ->
  main clock out w
  = (Return tt,
     Some (mkProc
             (mkCircuitBreaker 50 4 2 3 CLOSED (Some (snd (clock 2%nat)))
                (Deque.mk 4 [true]) 2 2)
             (out ++ [ (newline ++ "--- Initial calls ---")%string;
                       "Success!";
                       "Service failed!";
                       "[TRANSITION] → OPEN";
                       "Service failed!";
                       "CallNotPermittedException (Circuit is OPEN)";
                       (newline ++ "--- Waiting to move to HALF_OPEN ---")%string;
                       "[TRANSITION] → HALF_OPEN";
                       "Success!";
                       "[TRANSITION] → CLOSED";
                       "Success!";
                       (newline ++ "--- After recovery ---")%string;
                       "Success!" ])
             w)).
Proof.
  intros Hearly Hlate.
  assert (S0 : forall now o,
    step now false
      (mkProc (mkCircuitBreaker 50 4 2 3 CLOSED None (Deque.mk 4 []) 0 0) o w)
    = (Return tt,
       mkProc (mkCircuitBreaker 50 4 2 3 CLOSED None (Deque.mk 4 [true]) 0 0)
         (o ++ ["Success!"]) w)).
  { intros now o. run_step. reflexivity. }
  assert (S1 : forall now o,
    step now true
      (mkProc (mkCircuitBreaker 50 4 2 3 CLOSED None (Deque.mk 4 [true]) 0 0) o w)
    = (Return tt,
       mkProc (mkCircuitBreaker 50 4 2 3 CLOSED None (Deque.mk 4 [true; false]) 0 0)
         (o ++ ["Service failed!"]) w)).
  { intros now o. run_step. reflexivity. }
  assert (S2 : forall now o,
    step now true
      (mkProc (mkCircuitBreaker 50 4 2 3 CLOSED None (Deque.mk 4 [true; false]) 0 0) o w)
    = (Return tt,
       mkProc (mkCircuitBreaker 50 4 2 3 OPEN (Some (snd now))
                 (Deque.mk 4 [true; false; false]) 0 0)
         ((o ++ ["[TRANSITION] → OPEN"]) ++ ["Service failed!"]) w)).
  { intros now o. run_step. reflexivity. }
  assert (S3 : forall o,
    step (clock 3%nat) false
      (mkProc (mkCircuitBreaker 50 4 2 3 OPEN (Some (snd (clock 2%nat)))
                 (Deque.mk 4 [true; false; false]) 0 0) o w)
    = (Return tt,
       mkProc (mkCircuitBreaker 50 4 2 3 OPEN (Some (snd (clock 2%nat)))
                 (Deque.mk 4 [true; false; false]) 0 0)
         (o ++ ["CallNotPermittedException (Circuit is OPEN)"]) w)).
  { intros o. run_step. rewrite Hearly. reflexivity. }
  assert (S4 : forall o,
    step (clock 4%nat) false
      (mkProc (mkCircuitBreaker 50 4 2 3 OPEN (Some (snd (clock 2%nat)))
                 (Deque.mk 4 [true; false; false]) 0 0) o w)
    = (Return tt,
       mkProc (mkCircuitBreaker 50 4 2 3 HALF_OPEN (Some (snd (clock 2%nat)))
                 (Deque.mk 4 [true; false; false]) 1 1)
         ((o ++ ["[TRANSITION] → HALF_OPEN"]) ++ ["Success!"]) w)).
  { intros o. run_step. rewrite Hlate. reflexivity. }
  assert (S5 : forall now t o,
    step now false
      (mkProc (mkCircuitBreaker 50 4 2 3 HALF_OPEN (Some t)
                 (Deque.mk 4 [true; false; false]) 1 1) o w)
    = (Return tt,
       mkProc (mkCircuitBreaker 50 4 2 3 CLOSED (Some t) (Deque.mk 4 []) 2 2)
         ((o ++ ["[TRANSITION] → CLOSED"]) ++ ["Success!"]) w)).
  { intros now t o. run_step. reflexivity. }
  assert (S6 : forall now t o,
    step now false
      (mkProc (mkCircuitBreaker 50 4 2 3 CLOSED (Some t) (Deque.mk 4 []) 2 2) o w)
    = (Return tt,
       mkProc (mkCircuitBreaker 50 4 2 3 CLOSED (Some t) (Deque.mk 4 [true]) 2 2)
         (o ++ ["Success!"]) w)).
  { intros now t o. run_step. reflexivity. }
  unfold main. change (__init__ 50 4 2 3)
    with (Return (mkCircuitBreaker 50 4 2 3 CLOSED None (Deque.mk 4 []) 0 0)).
  cbv iota beta. unfold script.
  unfold bind at 1. unfold print at 1. cbn [self stdout world].
  rewrite (bind_return _ _ _ _ tt (S0 _ _)).
  rewrite (bind_return _ _ _ _ tt (S1 _ _)).
  rewrite (bind_return _ _ _ _ tt (S2 _ _)).
  rewrite (bind_return _ _ _ _ tt (S3 _)).
  unfold bind at 1. unfold print at 1. cbn [self stdout world].
  rewrite (bind_return _ _ _ _ tt (S4 _)).
  rewrite (bind_return _ _ _ _ tt (S5 _ _ _)).
  unfold bind at 1. unfold print at 1. cbn [self stdout world].
  rewrite (S6 _ _ _).
  repeat rewrite <- app_assoc. reflexivity.
Qed.

(** ** A breaker without trials *)

Lemma refused_without_budget {W R} (now_check now_record : float)
    (func : W -> result R * W) (p : Proc W) :
  0 <= half_open_calls (self p) ->
  half_open_max_calls (self p) <= 0 ->
  state (self p) <> CLOSED ->
  let p' := exec (call now_check now_record func) p in
  world p' = world p
  /\ state (self p') <> CLOSED
  /\ 0 <= half_open_calls (self p')
  /\ (exists e, eval (call now_check now_record func) p = Raise e).
Proof.
  intros Hcalls Hmax Hst p'. subst p'. unfold exec, eval. rewrite call_cases.
  destruct (state (self p)) eqn:E; [congruence | | ].
  - destruct (last_failure_time (self p)) as [t0 | ].
    + destruct (float_ge (now_check - t0)%float (open_state_wait (self p))).
      * cbv zeta.
        destruct (Z.leb_spec (half_open_max_calls (self p)) 0); [ | lia ].
        destruct p as [cb out w]; destruct cb. simpl in *.
        repeat split; try discriminate; try lia. eexists; reflexivity.
      * simpl. rewrite E. repeat split; try discriminate; try assumption.
        eexists; reflexivity.
    + simpl. rewrite E. repeat split; try discriminate; try assumption.
      eexists; reflexivity.
  - destruct (Z.leb_spec (half_open_max_calls (self p)) (half_open_calls (self p)));
      [ | lia ].
    simpl. rewrite E. repeat split; try discriminate; try assumption.
    eexists; reflexivity.
Qed.

(** X12. A breaker built with [half_open_max_calls <= 0], once it has left
    CLOSED, never closes again and never runs the operation again, whatever
    calls are made and however long one waits: each of them is refused. *)
Theorem no_recovery_without_budget {W R}
    (cs : list (float * float * (W -> result R * W))) (p : Proc W) :
  reachable p ->
  half_open_max_calls (self p) <= 0 ->
  state (self p) <> CLOSED ->
  state (self (call_all cs p)) <> CLOSED
  /\ world (call_all cs p) = world p
  /\ (forall (now_check now_record : float) (func : W -> result R * W),
        exists e, eval (call now_check now_record func) (call_all cs p) = Raise e).
Proof.
  intros Hr Hmax Hst.
  destruct (reachable_counters p Hr) as (H0 & H1 & _).
  assert (Hcalls : 0 <= half_open_calls (self p)) by lia.
  clear Hr H0 H1. revert p Hmax Hst Hcalls.
  induction cs as [ | [[t1 t2] func] rest IH]; intros p Hmax Hst Hcalls.
  - simpl. repeat split; [assumption | ].
    intros t1 t2 func.
    destruct (refused_without_budget t1 t2 func p Hcalls Hmax Hst)
      as (_ & _ & _ & He).
    exact He.
  - cbn [call_all].
    destruct (refused_without_budget t1 t2 func p Hcalls Hmax Hst)
      as (Hw & Hst' & Hcalls' & _).
    destruct (call_settings t1 t2 func p) as (_ & _ & Hm & _).
    rewrite Hm in Hmax.
    destruct (IH (exec (call t1 t2 func) p) Hmax Hst' Hcalls') as (Ha & Hb & Hc).
    repeat split; [exact Ha | congruence | exact Hc].
Qed.

(** ** The further properties on the run of the demo *)

Lemma demo_no_window_reachable : reachable demo_no_window.
Proof.
  unfold demo_no_window. do 2 apply reach_call.
  apply (reach_init 50 0 2 3). reflexivity.
Qed.

Lemma closed_call_failure_witness :
  (state (self demo_start) = CLOSED
   /\ service true (world demo_start)
      = (Raise (mkExn Exception "Service failed!"), 1%nat)
   /\ isinstance_Exception (mkExn Exception "Service failed!") = true)
  /\ eval (call 101 101 (service true)) demo_start
     = Raise (mkExn Exception "Service failed!")
  /\ recent_calls (self (exec (call 101 101 (service true)) demo_start))
     = Deque.append false (recent_calls (self demo_start)).
Proof.
  split; [repeat split | ].
  destruct (closed_call_failure 101 101 (service true) demo_start
              (mkExn Exception "Service failed!") 1%nat
              eq_refl eq_refl eq_refl) as (Hr & _ & Hrc & _).
  split; [exact Hr | exact Hrc].
Defined.

Lemma base_exception_not_recorded_witness :
  (interrupted (world demo_half_open)
   = (Raise (mkExn BaseException "KeyboardInterrupt"), 5%nat)
   /\ isinstance_Exception (mkExn BaseException "KeyboardInterrupt") = false
   /\ state (self demo_half_open) = HALF_OPEN
   /\ half_open_calls (self demo_half_open)
      < half_open_max_calls (self demo_half_open))
  /\ call 107 107 interrupted demo_half_open
     = (Raise (mkExn BaseException "KeyboardInterrupt"),
        mkProc (self demo_half_open) (stdout demo_half_open) 5%nat).
Proof.
  split; [repeat split | ].
  apply (base_exception_not_recorded 107 107 interrupted demo_half_open
           (mkExn BaseException "KeyboardInterrupt") 5%nat eq_refl eq_refl).
  right. split; reflexivity.
Defined.

Lemma trial_budget_never_exhausted_witness :
  (0 < half_open_max_calls (self demo_half_open)
   /\ state (self demo_half_open) <> OPEN)
  /\ half_open_calls (self demo_half_open)
     < half_open_max_calls (self demo_half_open)
  /\ call 107 107 (service false) demo_half_open
     = invoke_and_record 107 (service false) demo_half_open.
Proof.
  assert (Hst : state (self demo_half_open) <> OPEN) by (vm_compute; discriminate).
  split; [split; [reflexivity | exact Hst] | ].
  destruct (trial_budget_never_exhausted 107 107 (service false) demo_half_open
              demo_half_open_reachable eq_refl Hst) as [Hlt Hcall].
  split; [exact (Hlt eq_refl) | exact Hcall].
Defined.

Lemma counters_bounded_witness :
  0 <= half_open_success (self demo_half_open)
  /\ half_open_success (self demo_half_open) <= half_open_calls (self demo_half_open)
  /\ half_open_calls (self demo_half_open) <= half_open_success (self demo_half_open) + 1.
Proof.
  destruct (counters_bounded demo_half_open demo_half_open_reachable)
    as (H0 & H1 & H2 & _).
  split; [exact H0 | split; [exact H1 | exact H2]].
Defined.

Lemma zero_window_never_trips_witness :
  (window_size (self demo_no_window) = 0
   /\ float_gt 0 (failure_rate_threshold (self demo_no_window)) = false)
  /\ world demo_no_window = 2%nat
  /\ state (self demo_no_window) = CLOSED
  /\ self (exec (call 102 102 (service true)) demo_no_window) = self demo_no_window.
Proof.
  split; [split; reflexivity | split; [reflexivity | ] ].
  destruct (zero_window_never_trips 102 102 (service true) demo_no_window
              demo_no_window_reachable eq_refl eq_refl) as (Hst & _ & Hself & _).
  split; [exact Hst | exact Hself].
Defined.

Lemma window_holds_latest_outcomes_witness :
  (state (self demo_start) <> HALF_OPEN
   /\ 0 <= Deque.maxlen (recent_calls (self demo_start))
   /\ Deque.len (recent_calls (self demo_start))
      <= Deque.maxlen (recent_calls (self demo_start)))
  /\ Deque.items (recent_calls (self
       (record_all [(true, 100); (false, 101); (false, 102); (true, 103);
                    (false, 104)]%float demo_start)))
     = lastn 4 [true; false; false; true; false].
Proof.
  assert (Hst : state (self demo_start) <> HALF_OPEN) by (simpl; discriminate).
  assert (H0 : 0 <= Deque.maxlen (recent_calls (self demo_start)))
    by (simpl; lia).
  assert (Hle : Deque.len (recent_calls (self demo_start))
                <= Deque.maxlen (recent_calls (self demo_start)))
    by (vm_compute; discriminate).
  split; [split; [exact Hst | split; [exact H0 | exact Hle]] | ].
  exact (window_holds_latest_outcomes
           [(true, 100); (false, 101); (false, 102); (true, 103); (false, 104)]%float
           demo_start Hst H0 Hle).
Defined.

Lemma consecutive_successes_close_witness :
  (state (self demo_half_open) = HALF_OPEN
   /\ half_open_success (self demo_half_open) = half_open_calls (self demo_half_open)
   /\ half_open_calls (self demo_half_open) < half_open_max_calls (self demo_half_open))
  /\ state (self (call_all [(108, 108, service false)]%float demo_half_open))
     = CLOSED
  /\ Deque.items (recent_calls (self
       (call_all [(108, 108, service false)]%float demo_half_open))) = [].
Proof.
  split; [repeat split | ].
  assert (Hall : Forall (fun c : float * float * (nat -> result string * nat) =>
                           forall w, exists v w', snd c w = (Return v, w'))
                   [(108, 108, service false)]%float).
  { constructor; [ | constructor ].
    intros w. exists "Success!", (S w). reflexivity. }
  destruct (consecutive_successes_close [(108, 108, service false)]%float
              demo_half_open eq_refl eq_refl eq_refl Hall) as [_ Hclose].
  destruct (Hclose eq_refl) as (Hst & Hit & _).
  split; [exact Hst | exact Hit].
Defined.

Lemma script_run_witness :
  (float_ge (fst (demo_clock 3%nat) - snd (demo_clock 2%nat))%float 3 = false
   /\ float_ge (fst (demo_clock 4%nat) - snd (demo_clock 2%nat))%float 3 = true)
  /\ fst (main demo_clock [] tt) = Return tt.
Proof.
  split; [split; reflexivity | ].
  rewrite (script_run demo_clock [] tt eq_refl eq_refl). reflexivity.
Defined.

Lemma reachable_open_has_time_witness :
  state (self demo_open) = OPEN
  /\ exists t0 : float, last_failure_time (self demo_open) = Some t0.
Proof.
  split; [reflexivity | ].
  exact (reachable_open_has_time demo_open demo_open_reachable eq_refl).
Defined.

Lemma no_recovery_without_budget_witness :
  (half_open_max_calls (self demo_no_budget) <= 0
   /\ state (self demo_no_budget) <> CLOSED
   /\ world demo_no_budget = 3%nat)
  /\ state (self (call_all [(200, 200, service false); (300, 300, service false)]%float
                    demo_no_budget)) <> CLOSED
  /\ world (call_all [(200, 200, service false); (300, 300, service false)]%float
              demo_no_budget) = world demo_no_budget.
Proof.
  assert (Hr : reachable demo_no_budget).
  { unfold demo_no_budget. do 4 apply reach_call.
    apply (reach_init 50 4 0 3). reflexivity. }
  assert (Hmax : half_open_max_calls (self demo_no_budget) <= 0)
    by (vm_compute; discriminate).
  assert (Hst : state (self demo_no_budget) <> CLOSED)
    by (vm_compute; discriminate).
  split; [split; [exact Hmax | split; [exact Hst | reflexivity]] | ].
  destruct (no_recovery_without_budget
              [(200, 200, service false); (300, 300, service false)]%float
              demo_no_budget Hr Hmax Hst) as (Ha & Hb & _).
  split; [exact Ha | exact Hb].
Defined.
